(** * Verification model of the ODSC "Evaluating Statistical Models" notebooks

    The repository consists of three Jupyter notebooks:
    - [evaluating_stakeholder_needs.ipynb] (the main tutorial, diabetes data),
    - [exercises_air_quality.ipynb],
    - [exercises_life_expectancy.ipynb].

    Each notebook is a straight-line Python script split into cells.  The
    cells are embedded below statement by statement as computations in a
    small monad that threads the kernel namespace (the Python globals),
    records what the notebook reads and prints, and stops at the first
    exception.  Code cells that hold only imports, only comments or nothing
    are left out, and the imported names are taken as bound: the notebooks
    are modelled as run in order, imports included.  The pandas operations
    on tables (column selection, [fillna], [drop], [reset_index], Pearson
    correlation rounded to two decimals, boolean-mask thresholding) and the
    row bookkeeping of [train_test_split] are written out; the numerical
    estimators (StandardScaler, LinearRegression, the metrics, statsmodels
    OLS) and the plotting calls are fields of a [Library] record, so that
    every theorem holds for whatever these external functions compute.
    Numbers are exact rationals: the correlation and the rounding below are
    those of real arithmetic, which pandas and numpy follow up to the error
    of their double-precision computation. *)

From Stdlib Require Import ZArith QArith Qround Qabs List String Bool Lia Lqa.
From stdpp Require Import base option gmap strings.
Import ListNotations.

Local Open Scope string_scope.
Local Open Scope list_scope.

(** ** Tables *)

(** One cell of a pandas object: a missing value (NaN), a number, or a
    Python string (object dtype).  Finite floats are rationals, so numbers
    are carried as [Q]. *)
Inductive cell : Type :=
| NA
| Num (q : Q)
| Str (s : string).

(** A positional Series (the values of one column). *)
Definition series : Type := list cell.

(** A DataFrame with the default RangeIndex: the number of rows and the
    columns in order. *)
Record frame : Type := Frame {
  nrows : nat;
  columns : list (string * series)
}.

(** A Series indexed by labels, and a frame whose rows are indexed by labels
    (the shape of a correlation matrix). *)
Definition lseries : Type := list (string * cell).
Definition lframe : Type := list (string * lseries).

(** A two-dimensional numpy array of floats, row by row. *)
Definition matrix : Type := list (list Q).

(** Python exceptions that the modelled statements can raise.  [KeyError]
    carries the labels that were not found; [LibraryError] stands for any
    exception raised inside an external estimator or plotting call. *)
Inductive exn : Type :=
| NameError (x : string)
| TypeError (x : string)
| KeyError (labels : list string)
| ValueError (msg : string)
| IndexError
| FileNotFoundError (path : string)
| LibraryError (msg : string).

Definition except (A : Type) : Type := (exn + A)%type.

(** The result of an external estimator or plotting call: a value, or the
    message of the exception it raised. *)
Definition libresult (A : Type) : Type := (string + A)%type.

Definition is_missing (c : cell) : bool :=
  match c with NA => true | _ => false end.

Definition column_names (f : frame) : list string := map fst (columns f).

Fixpoint assoc {A : Type} (x : string) (l : list (string * A)) : option A :=
  match l with
  | [] => None
  | (y, a) :: l' => if String.eqb x y then Some a else assoc x l'
  end.

(** [df[name]] *)
Definition getitem (name : string) (f : frame) : except series :=
  match assoc name (columns f) with
  | Some s => inr s
  | None => inl (KeyError [name])
  end.

(** [df[name] = values]: replaces the column in place when it exists and
    appends it otherwise. *)
Fixpoint replace_column (name : string) (s : series)
    (cols : list (string * series)) : list (string * series) :=
  match cols with
  | [] => [(name, s)]
  | (y, old) :: rest =>
      if String.eqb name y then (y, s) :: rest
      else (y, old) :: replace_column name s rest
  end.

Definition setitem (name : string) (s : series) (f : frame) : frame :=
  Frame (nrows f) (replace_column name s (columns f)).

(** [df[names]] with a list of labels: every label must be a column. *)
Definition missing_labels (names : list string) (f : frame) : list string :=
  List.filter (fun n => negb (existsb (String.eqb n) (column_names f))) names.

Definition select (names : list string) (f : frame) : except frame :=
  match missing_labels names f with
  | [] =>
      inr (Frame (nrows f)
             (flat_map (fun n => match assoc n (columns f) with
                                 | Some s => [(n, s)]
                                 | None => []
                                 end) names))
  | miss => inl (KeyError miss)
  end.

(** [df.drop(names, axis="columns")] *)
Definition drop (names : list string) (f : frame) : except frame :=
  match missing_labels names f with
  | [] =>
      inr (Frame (nrows f)
             (List.filter (fun c => negb (existsb (String.eqb (fst c)) names))
                (columns f)))
  | miss => inl (KeyError miss)
  end.

(** [df.fillna(0)] *)
Definition fill0 (c : cell) : cell :=
  match c with NA => Num 0 | _ => c end.

Definition fillna0 (f : frame) : frame :=
  Frame (nrows f) (map (fun c => (fst c, map fill0 (snd c))) (columns f)).

(** [df.reset_index()] on a frame with the default index: the old index
    0..n-1 becomes the first column, called "index", or "level_0" when a
    column "index" exists already; pandas refuses when both exist. *)
Definition range_cells (n : nat) : series :=
  map (fun i => Num (inject_Z (Z.of_nat i))) (seq 0 n).

Definition reset_index (f : frame) : except frame :=
  let has n := existsb (String.eqb n) (column_names f) in
  if negb (has "index") then
    inr (Frame (nrows f) (("index", range_cells (nrows f)) :: columns f))
  else if negb (has "level_0") then
    inr (Frame (nrows f) (("level_0", range_cells (nrows f)) :: columns f))
  else inl (ValueError "cannot insert level_0, already exists").

(** The recode of the life-expectancy notebook:
    [[1 if d == "Developed" else 0 for d in df["status"]]] *)
Definition recode_status (d : cell) : cell :=
  match d with
  | Str s => if String.eqb s "Developed" then Num 1 else Num 0
  | _ => Num 0
  end.

(** ** Pearson correlation, rounded to two decimals *)

(** pandas computes [corr] over the numeric columns only and, for each pair
    of columns, over the rows where both values are present. *)
Definition is_numeric (s : series) : bool :=
  forallb (fun c => match c with Str _ => false | _ => true end) s.

Definition numeric_columns (f : frame) : list (string * series) :=
  List.filter (fun c => is_numeric (snd c)) (columns f).

Fixpoint complete_pairs (xs ys : series) : list (Q * Q) :=
  match xs, ys with
  | x :: xs', y :: ys' =>
      match x, y with
      | Num a, Num b => (a, b) :: complete_pairs xs' ys'
      | _, _ => complete_pairs xs' ys'
      end
  | _, _ => []
  end.

Definition Qsum (l : list Q) : Q := fold_right Qplus 0%Q l.

(** [n] times the sum of the products of deviations:
    n * sum (x*y) - sum x * sum y. *)
Definition scaled_cov (ps : list (Q * Q)) : Q :=
  (inject_Z (Z.of_nat (List.length ps)) * Qsum (map (fun p => fst p * snd p) ps)
   - Qsum (map fst ps) * Qsum (map snd ps))%Q.

Definition co_moment (xs ys : series) : Q := scaled_cov (complete_pairs xs ys).

Definition self_moment_x (xs ys : series) : Q :=
  scaled_cov (map (fun p => (fst p, fst p)) (complete_pairs xs ys)).

Definition self_moment_y (xs ys : series) : Q :=
  scaled_cov (map (fun p => (snd p, snd p)) (complete_pairs xs ys)).

(** Round a non-negative rational whose square is [a] to the nearest
    integer, ties to the even one (numpy's rounding rule): the result is
    the integer nearest to sqrt a. *)
Definition round_sqrt (a : Q) : Z :=
  let f := Z.sqrt (Qfloor a) in
  match Qcompare (4 * a) (inject_Z ((2 * f + 1) * (2 * f + 1))) with
  | Lt => f
  | Gt => (f + 1)%Z
  | Eq => if Z.even f then f else (f + 1)%Z
  end.

(** The entry of [df.corr().round(2)] for two columns: with
    C = n*Sxy - Sx*Sy, Vx = n*Sxx - Sx^2 and Vy likewise, Pearson's r is
    C / sqrt (Vx*Vy); it is NaN when the denominator vanishes.  The rounded
    value is k/100 with k the integer nearest to 100*|r|, carrying the sign
    of C.  This is the value of real arithmetic; pandas computes r in
    double precision. *)
Definition pearson_round2 (xs ys : series) : cell :=
  let c := co_moment xs ys in
  let d := (self_moment_x xs ys * self_moment_y xs ys)%Q in
  if Qeq_bool d 0 then NA
  else
    let k := round_sqrt (10000 * (c * c) / d) in
    Num (match Qcompare c 0 with Lt => (- k) # 100 | _ => k # 100 end).

(** The unrounded coefficient exceeds [t >= 0] in absolute value exactly
    when C^2 > t^2 * Vx * Vy. *)
Definition pearson_abs_gt (t : Q) (xs ys : series) : bool :=
  let c := co_moment xs ys in
  let d := (self_moment_x xs ys * self_moment_y xs ys)%Q in
  if Qeq_bool d 0 then false
  else negb (Qle_bool (c * c) (t * t * d)).

(** [df.corr().round(2)]: rows and columns are the numeric columns. *)
Definition corr_round2 (f : frame) : lframe :=
  let nc := numeric_columns f in
  map (fun c => (fst c, map (fun r => (fst r, pearson_round2 (snd r) (snd c))) nc)) nc.

(** [df_corr[name]] *)
Definition lgetitem (name : string) (m : lframe) : except lseries :=
  match assoc name m with
  | Some s => inr s
  | None => inl (KeyError [name])
  end.

(** [s[np.absolute(s) > t]]: comparisons with NaN are false. *)
Definition abs_gt (t : Q) (c : cell) : bool :=
  match c with
  | Num q => negb (Qle_bool (Qabs q) t)
  | _ => false
  end.

Definition threshold (t : Q) (s : lseries) : lseries :=
  List.filter (fun e => abs_gt t (snd e)) s.

(** [s.index] *)
Definition index (s : lseries) : list string := map fst s.

(** [x.round(2)] for a float: nearest multiple of 1/100, ties to even, in
    real arithmetic (numpy rounds the double nearest to 100 x, so its
    result can be the other neighbour when x is within a rounding error of
    a tie). *)
Definition round2 (q : Q) : Q :=
  let k := round_sqrt (10000 * (q * q)) in
  match Qcompare q 0 with Lt => (- k) # 100 | _ => k # 100 end.

(** ** The external libraries *)

(** The generator that [train_test_split] draws its permutation from: a
    fresh [RandomState(seed)] when [random_state] is an integer, numpy's
    global generator (whose state differs from run to run) when it is
    [None]. *)
Inductive rng : Type :=
| RandomState (seed : Z)
| GlobalState (entropy : Z).

(** Everything the notebooks take from numpy, scikit-learn, statsmodels and
    seaborn beyond table bookkeeping.  Fitted objects are opaque.
    [ols_summary] is the text of [results.summary(xname=...)] apart from
    its date and time lines. *)
Record Library : Type := {
  scaler : Type;
  linreg : Type;
  ols_model : Type;
  ols_results : Type;
  permutation : rng -> nat -> list nat;
  scaler_fit : frame -> libresult scaler;
  scaler_transform : scaler -> frame -> libresult matrix;
  linreg_fit : matrix -> series -> libresult linreg;
  linreg_predict : linreg -> matrix -> libresult (list Q);
  linreg_score : linreg -> matrix -> series -> libresult Q;
  r2_score : series -> list Q -> libresult Q;
  mean_squared_error : series -> list Q -> libresult Q;
  add_constant : matrix -> libresult matrix;
  OLS : series -> matrix -> libresult ols_model;
  ols_fit : ols_model -> libresult ols_results;
  ols_summary : ols_results -> list string -> libresult string;
  frame_info : frame -> string;
  pairplot : frame -> libresult unit;
  regplot : string -> string -> frame -> libresult unit
}.

(** What a run can observe outside the kernel: the parsed content of the
    CSV files on disk, the dataset bundled with scikit-learn (frame and
    description), and the state of numpy's global generator. *)
Record world : Type := World {
  files : string -> option frame;
  sklearn_diabetes : frame * string;
  entropy : Z
}.

(** What is shown in the notebook output.  A regression summary of
    statsmodels carries the date and the time of the call in two of its
    lines.  No statement of a notebook reads them back, so a run records
    the summary with these lines left open ([ShSummary]); on the screen they
    are filled in from the clock ([ShDated], see [screen] below). *)
Inductive shown : Type :=
| ShText (s : string)
| ShNum (caption : string) (q : Q)
| ShLFrame (m : lframe)
| ShLSeries (s : lseries)
| ShSummary (body : string)
| ShDated (time : string) (body : string).

(** External effects of a statement. *)
Inductive event : Type :=
| FileRead (path : string)
| FileWrite (path : string)
| Stdout (s : shown)
| Display (s : shown)
| Figure (kind : string).

Definition is_output (e : event) : bool :=
  match e with
  | Stdout _ | Display _ | Figure _ => true
  | FileRead _ | FileWrite _ => false
  end.

(** What the screen shows for a trace: every summary gets the date and
    time of its call, [now n] being the reading of the clock at the n-th
    summary of the run. *)
Fixpoint screen_from (now : nat -> string) (n : nat) (tr : list event)
    : list event :=
  match tr with
  | [] => []
  | Stdout (ShSummary body) :: tr' =>
      Stdout (ShDated (now n) body) :: screen_from now (S n) tr'
  | e :: tr' => e :: screen_from now n tr'
  end.

Definition screen (now : nat -> string) (tr : list event) : list event :=
  screen_from now 0 tr.

(** A shown summary with its date and time lines blanked again. *)
Definition undated (e : event) : event :=
  match e with
  | Stdout (ShDated _ body) => Stdout (ShSummary body)
  | _ => e
  end.

(** The printed metric lines. *)
Definition is_metric (e : event) : bool :=
  match e with
  | Stdout (ShNum _ _) => true
  | _ => false
  end.

(** ** [train_test_split]: the row bookkeeping *)

Fixpoint take_rows {A : Type} (idx : list nat) (l : list A) : except (list A) :=
  match idx with
  | [] => inr []
  | i :: idx' =>
      match nth_error l i with
      | None => inl IndexError
      | Some a =>
          match take_rows idx' l with
          | inl e => inl e
          | inr rest => inr (a :: rest)
          end
      end
  end.

Fixpoint take_columns (idx : list nat) (cols : list (string * series))
    : except (list (string * series)) :=
  match cols with
  | [] => inr []
  | (n, s) :: cols' =>
      match take_rows idx s with
      | inl e => inl e
      | inr s' =>
          match take_columns idx cols' with
          | inl e => inl e
          | inr rest => inr ((n, s') :: rest)
          end
      end
  end.

Definition take_frame (idx : list nat) (f : frame) : except frame :=
  match take_columns idx (columns f) with
  | inl e => inl e
  | inr cols => inr (Frame (List.length idx) cols)
  end.

(** n_test = ceil (test_size * n), n_train = n - n_test; scikit-learn
    refuses an empty input and an empty training set. *)
Definition split_sizes (test_size : Q) (n : nat) : except (nat * nat) :=
  let n_test := Z.to_nat (Qceiling (test_size * inject_Z (Z.of_nat n))) in
  let n_train := (n - n_test)%nat in
  if Nat.eqb n 0 then inl (ValueError "n_samples=0")
  else if Nat.eqb n_train 0 then inl (ValueError "the resulting train set will be empty")
  else inr (n_train, n_test).

Record split : Type := MkSplit {
  split_X_train : frame;
  split_X_test : frame;
  split_y_train : series;
  split_y_test : series
}.

(** The first n_test entries of the permutation are the test rows, the next
    n_train the training rows. *)
Definition split_with (perm : list nat) (test_size : Q) (X : frame) (y : series)
    : except split :=
  if negb (Nat.eqb (List.length y) (nrows X)) then
    inl (ValueError "inconsistent numbers of samples")
  else
    match split_sizes test_size (nrows X) with
    | inl e => inl e
    | inr (n_train, n_test) =>
        let test_idx := firstn n_test perm in
        let train_idx := firstn n_train (skipn n_test perm) in
        match take_frame train_idx X, take_frame test_idx X,
              take_rows train_idx y, take_rows test_idx y with
        | inr Xtr, inr Xte, inr ytr, inr yte => inr (MkSplit Xtr Xte ytr yte)
        | inl e, _, _, _ => inl e
        | _, inl e, _, _ => inl e
        | _, _, inl e, _ => inl e
        | _, _, _, inl e => inl e
        end
    end.

(** ** The kernel and the notebook monad *)

(** The steps the notebooks are made of.  A statement is labelled by the
    library call it makes: [read_csv] / [load_diabetes] is [Load], [fillna]
    is [Clean], [corr] and the thresholding of its result are [Correlate],
    [train_test_split] is [Split], StandardScaler calls are [Scale],
    [LinearRegression.fit] is [Fit], printing a metric or a regression
    summary is [PrintMetrics], the second fit through statsmodels
    ([add_constant], [OLS], [fit]) is [Refit]; everything else (inspecting,
    plotting, selecting and dropping columns, predicting) is [Aux]. *)
Inductive step : Type :=
| Load | Clean | Correlate | Split | Scale | Fit | PrintMetrics | Refit | Aux.

Definition step_eqb (a b : step) : bool :=
  match a, b with
  | Load, Load | Clean, Clean | Correlate, Correlate | Split, Split
  | Scale, Scale | Fit, Fit | PrintMetrics, PrintMetrics | Refit, Refit
  | Aux, Aux => true
  | _, _ => false
  end.

Section Notebooks.

Context (L : Library).

(** Python objects bound to the notebook's variables. *)
Inductive value : Type :=
| VBunch (data : frame) (descr : string)
| VFrame (f : frame)
| VSeries (s : series)
| VLFrame (m : lframe)
| VLSeries (s : lseries)
| VArray (m : matrix)
| VVector (v : list Q)
| VScaler (fitted : option (scaler L))
| VLinReg (fitted : option (linreg L))
| VModel (m : ols_model L)
| VResults (r : ols_results L).

(** The kernel namespace: Python's globals, from variable names to
    objects. *)
Local Abbreviation kernel := (gmap string value) (only parsing).

(** The outcome of running statements: what was read and shown, the
    namespace left behind (kept as it is when an exception stops the run),
    and the value or the exception. *)
Record outcome (A : Type) : Type := Outcome {
  trace : list event;
  final : kernel;
  result : except A
}.
Arguments Outcome {A} _ _ _.
Arguments trace {A} _.
Arguments final {A} _.
Arguments result {A} _.

Definition M (A : Type) : Type := world -> kernel -> outcome A.

#[global] Instance M_ret : MRet M :=
  fun A a _ k => Outcome [] k (inr a).

#[global] Instance M_bind : MBind M :=
  fun A B f m w k =>
    let o := m w k in
    match result o with
    | inl e => Outcome (trace o) (final o) (inl e)
    | inr a =>
        let o' := f a w (final o) in
        Outcome (trace o ++ trace o') (final o') (result o')
    end.

Definition raise {A : Type} (e : exn) : M A :=
  fun _ k => Outcome [] k (inl e).

Definition lift {A : Type} (r : except A) : M A :=
  fun _ k => Outcome [] k r.

(** A call into an external estimator or plotting function: its exception,
    if any, surfaces as a [LibraryError]. *)
Definition libcall {A : Type} (r : libresult A) : M A :=
  lift (match r with
        | inl msg => inl (LibraryError msg)
        | inr a => inr a
        end).

Definition emit (e : event) : M unit :=
  fun _ k => Outcome [e] k (inr tt).

Definition var (x : string) : M value :=
  fun _ k =>
    Outcome [] k (match k !! x with
                  | Some v => inr v
                  | None => inl (NameError x)
                  end).

Definition assign (x : string) (v : value) : M unit :=
  fun _ k => Outcome [] (<[x := v]> k) (inr tt).

(** [pd.read_csv(path)]: [files w path] is the table pandas parses from the
    file, when the file is there and is a CSV file pandas can parse; the
    one failure modelled is the missing file. *)
Definition read_csv (path : string) : M frame :=
  fun w k =>
    Outcome [FileRead path] k
      (match files w path with
       | Some f => inr f
       | None => inl (FileNotFoundError path)
       end).

(** [datasets.load_diabetes(as_frame=True)] *)
Definition load_diabetes : M (frame * string) :=
  fun w k => Outcome [FileRead "sklearn/datasets/data/diabetes"] k
               (inr (sklearn_diabetes w)).

Definition global_entropy : M Z :=
  fun w k => Outcome [] k (inr (entropy w)).

(** Reading a variable at the type the operation needs. *)
Definition bunch_var (x : string) : M (frame * string) :=
  v ← var x; match v with VBunch f d => mret (f, d) | _ => raise (TypeError x) end.
Definition frame_var (x : string) : M frame :=
  v ← var x; match v with VFrame f => mret f | _ => raise (TypeError x) end.
Definition series_var (x : string) : M series :=
  v ← var x; match v with VSeries s => mret s | _ => raise (TypeError x) end.
Definition lframe_var (x : string) : M lframe :=
  v ← var x; match v with VLFrame m => mret m | _ => raise (TypeError x) end.
Definition lseries_var (x : string) : M lseries :=
  v ← var x; match v with VLSeries s => mret s | _ => raise (TypeError x) end.
Definition array_var (x : string) : M matrix :=
  v ← var x; match v with VArray m => mret m | _ => raise (TypeError x) end.
Definition vector_var (x : string) : M (list Q) :=
  v ← var x; match v with VVector p => mret p | _ => raise (TypeError x) end.
Definition scaler_var (x : string) : M (option (scaler L)) :=
  v ← var x; match v with VScaler s => mret s | _ => raise (TypeError x) end.
Definition linreg_var (x : string) : M (option (linreg L)) :=
  v ← var x; match v with VLinReg m => mret m | _ => raise (TypeError x) end.
Definition model_var (x : string) : M (ols_model L) :=
  v ← var x; match v with VModel m => mret m | _ => raise (TypeError x) end.
Definition results_var (x : string) : M (ols_results L) :=
  v ← var x; match v with VResults r => mret r | _ => raise (TypeError x) end.

(** Using an estimator before it is fitted raises scikit-learn's
    NotFittedError. *)
Definition fitted {A : Type} (o : option A) : M A :=
  match o with
  | Some a => mret a
  | None => raise (LibraryError "NotFittedError")
  end.

(** [train_test_split(X, y, test_size=..., random_state=...)] *)
Definition train_test_split (X : frame) (y : series) (test_size : Q)
    (random_state : option Z) : M split :=
  g ← match random_state with
      | Some s => mret (RandomState s)
      | None => e ← global_entropy; mret (GlobalState e)
      end;
  lift (split_with (permutation L g (nrows X)) test_size X y).

(** A statement: its step label and what it does. *)
Record stmt : Type := Stmt {
  kind : step;
  exec : M unit
}.

Definition code_cell : Type := list stmt.
Definition notebook : Type := list code_cell.

Fixpoint run_stmts (l : list stmt) : M unit :=
  match l with
  | [] => mret tt
  | s :: l' => exec s ;; run_stmts l'
  end.

(** Running the cells of a notebook in order. *)
Definition run (nb : notebook) : M unit := run_stmts (concat nb).

Definition steps (nb : notebook) : list step := map kind (concat nb).

(** ** The statements of the notebooks *)

(** [df = pd.read_csv(path)] *)
Definition s_read_csv (path : string) : stmt :=
  Stmt Load (f ← read_csv path; assign "df" (VFrame f)).

(** [df["status"] = [1 if d == "Developed" else 0 for d in df["status"]]] *)
Definition s_recode_status : stmt :=
  Stmt Aux (df ← frame_var "df";
            s ← lift (getitem "status" df);
            assign "df" (VFrame (setitem "status" (map recode_status s) df))).

(** [df = df.fillna(0)] *)
Definition s_fillna_df : stmt :=
  Stmt Clean (df ← frame_var "df"; assign "df" (VFrame (fillna0 df))).

(** [df = df.reset_index()] *)
Definition s_reset_index : stmt :=
  Stmt Aux (df ← frame_var "df";
            df' ← lift (reset_index df);
            assign "df" (VFrame df')).

(** [db = datasets.load_diabetes(as_frame = True)] *)
Definition s_load_diabetes : stmt :=
  Stmt Load (b ← load_diabetes; assign "db" (VBunch (fst b) (snd b))).

(** [df = db.frame] *)
Definition s_db_frame : stmt :=
  Stmt Aux (b ← bunch_var "db"; assign "df" (VFrame (fst b))).

(** [print(db.DESCR)] *)
Definition s_print_descr : stmt :=
  Stmt Aux (b ← bunch_var "db"; emit (Stdout (ShText (snd b)))).

(** [df.info()] *)
Definition s_info : stmt :=
  Stmt Aux (df ← frame_var "df"; emit (Stdout (ShText (frame_info L df)))).

(** [df_corr = df.corr().round(2)] *)
Definition s_corr : stmt :=
  Stmt Correlate (df ← frame_var "df";
                  assign "df_corr" (VLFrame (corr_round2 df))).

(** [df_corr] as the last expression of a cell *)
Definition s_show_corr : stmt :=
  Stmt Aux (m ← lframe_var "df_corr"; emit (Display (ShLFrame m))).

(** [v = df_corr[outcome][np.absolute(df_corr[outcome]) > t]] *)
Definition s_threshold (v outcome : string) (t : Q) : stmt :=
  Stmt Correlate (m ← lframe_var "df_corr";
                  s ← lift (lgetitem outcome m);
                  assign v (VLSeries (threshold t s))).

(** [v] as the last expression of a cell *)
Definition s_show_series (v : string) : stmt :=
  Stmt Aux (s ← lseries_var v; emit (Display (ShLSeries s))).

(** [sns.pairplot(df[v.index]);] *)
Definition s_pairplot (v : string) : stmt :=
  Stmt Aux (df ← frame_var "df";
            s ← lseries_var v;
            sub ← lift (select (index s) df);
            _ ← libcall (pairplot L sub);
            emit (Figure "pairplot")).

(** [X = df[v.index]] *)
Definition s_select_X (v : string) : stmt :=
  Stmt Aux (df ← frame_var "df";
            s ← lseries_var v;
            X ← lift (select (index s) df);
            assign "X" (VFrame X)).

(** [X = X.fillna(0)] *)
Definition s_fillna_X : stmt :=
  Stmt Clean (X ← frame_var "X"; assign "X" (VFrame (fillna0 X))).

(** [X = X.drop(names, axis = "columns")] *)
Definition s_drop_X (names : list string) : stmt :=
  Stmt Aux (X ← frame_var "X";
            X' ← lift (drop names X);
            assign "X" (VFrame X')).

(** [y = df[outcome]] *)
Definition s_get_y (outcome : string) : stmt :=
  Stmt Aux (df ← frame_var "df";
            y ← lift (getitem outcome df);
            assign "y" (VSeries y)).

(** [X_train, X_test, y_train, y_test =
       train_test_split(X, y, test_size=0.2, random_state=seed)] *)
Definition s_split (seed : Z) : stmt :=
  Stmt Split (X ← frame_var "X";
              y ← series_var "y";
              sp ← train_test_split X y (2 # 10) (Some seed);
              assign "X_train" (VFrame (split_X_train sp));;
              assign "X_test" (VFrame (split_X_test sp));;
              assign "y_train" (VSeries (split_y_train sp));;
              assign "y_test" (VSeries (split_y_test sp))).

(** [sc = StandardScaler()] *)
Definition s_new_scaler : stmt :=
  Stmt Scale (assign "sc" (VScaler None)).

(** [X_train = sc.fit_transform(X_train)]: the scaler object is fitted in
    place on the argument and then applied to it. *)
Definition s_fit_transform : stmt :=
  Stmt Scale (_ ← scaler_var "sc";
              Xtr ← frame_var "X_train";
              p ← libcall (scaler_fit L Xtr);
              assign "sc" (VScaler (Some p));;
              m ← libcall (scaler_transform L p Xtr);
              assign "X_train" (VArray m)).

(** [X_test = sc.transform(X_test)] *)
Definition s_transform_test : stmt :=
  Stmt Scale (sc ← scaler_var "sc";
              Xte ← frame_var "X_test";
              p ← fitted sc;
              m ← libcall (scaler_transform L p Xte);
              assign "X_test" (VArray m)).

(** [lr = LinearRegression()] *)
Definition s_new_linreg : stmt :=
  Stmt Aux (assign "lr" (VLinReg None)).

(** [lr.fit(X_train, y_train)] *)
Definition s_fit : stmt :=
  Stmt Fit (_ ← linreg_var "lr";
            X ← array_var "X_train";
            y ← series_var "y_train";
            m ← libcall (linreg_fit L X y);
            assign "lr" (VLinReg (Some m))).

(** [y_preds = lr.predict(X_test)] *)
Definition s_predict : stmt :=
  Stmt Aux (lr ← linreg_var "lr";
            X ← array_var "X_test";
            m ← fitted lr;
            p ← libcall (linreg_predict L m X);
            assign "y_preds" (VVector p)).

(** [print(f"{lr} training set r2 score: {lr.score(X_train, y_train).round(2)}")] *)
Definition s_print_train_r2 : stmt :=
  Stmt PrintMetrics
    (lr ← linreg_var "lr";
     X ← array_var "X_train";
     y ← series_var "y_train";
     m ← fitted lr;
     q ← libcall (linreg_score L m X y);
     emit (Stdout (ShNum "LinearRegression() training set r2 score: " (round2 q)))).

(** [print(f"{lr} test set r2 score: {r2_score(y_test, y_preds).round(2)}")] *)
Definition s_print_test_r2 : stmt :=
  Stmt PrintMetrics
    (_ ← linreg_var "lr";
     y ← series_var "y_test";
     p ← vector_var "y_preds";
     q ← libcall (r2_score L y p);
     emit (Stdout (ShNum "LinearRegression() test set r2 score: " (round2 q)))).

(** [print(f"{lr} test set mean squared error:
             {mean_squared_error(y_test, y_preds).round(2)}")] *)
Definition s_print_test_mse : stmt :=
  Stmt PrintMetrics
    (_ ← linreg_var "lr";
     y ← series_var "y_test";
     p ← vector_var "y_preds";
     q ← libcall (mean_squared_error L y p);
     emit (Stdout (ShNum "LinearRegression() test set mean squared error: "
                     (round2 q)))).

(** [x_train = sm.add_constant(X_train)] *)
Definition s_add_constant : stmt :=
  Stmt Refit (X ← array_var "X_train";
              m ← libcall (add_constant L X);
              assign "x_train" (VArray m)).

(** [model = sm.OLS(y_train, x_train)] *)
Definition s_ols : stmt :=
  Stmt Refit (y ← series_var "y_train";
              x ← array_var "x_train";
              m ← libcall (OLS L y x);
              assign "model" (VModel m)).

(** [results = model.fit()] *)
Definition s_ols_fit : stmt :=
  Stmt Refit (m ← model_var "model";
              r ← libcall (ols_fit L m);
              assign "results" (VResults r)).

(** [print(results.summary(xname = ["const"] + list(X.columns)))] *)
Definition s_print_summary : stmt :=
  Stmt PrintMetrics
    (r ← results_var "results";
     X ← frame_var "X";
     t ← libcall (ols_summary L r ("const" :: column_names X));
     emit (Stdout (ShSummary t))).

(** [sns.regplot(x="s3", y="target", data=df, marker="+");] *)
Definition s_regplot : stmt :=
  Stmt Aux (df ← frame_var "df";
            _ ← libcall (regplot L "s3" "target" df);
            emit (Figure "regplot")).

(** ** Cells shared by the three notebooks *)

(** The model set-up cell: select, fill, drop the outcome, take y, split,
    standardise. *)
Definition cell_setup (v outcome : string) (seed : Z) : code_cell :=
  [ s_select_X v; s_fillna_X; s_drop_X [outcome]; s_get_y outcome;
    s_split seed; s_new_scaler; s_fit_transform; s_transform_test ].

Definition cell_fit : code_cell := [ s_new_linreg; s_fit; s_predict ].

Definition cell_ols : code_cell := [ s_add_constant; s_ols; s_ols_fit ].

(** ** exercises_air_quality.ipynb *)
Definition air_quality : notebook :=
  [ [ s_read_csv "air_quality.csv"; s_fillna_df ];
    [ s_info ];
    [ s_corr; s_show_corr ];
    [ s_threshold "y_corr" "benzene" (5 # 10); s_show_series "y_corr" ];
    [ s_pairplot "y_corr" ];
    cell_setup "y_corr" "benzene" 9;
    cell_fit;
    [ s_print_train_r2; s_print_test_r2 ];
    cell_ols;
    [ s_print_summary ] ].

(** ** exercises_life_expectancy.ipynb *)
Definition life_expectancy : notebook :=
  [ [ s_read_csv "life_expectancy.csv"; s_recode_status; s_fillna_df;
      s_reset_index ];
    [ s_info ];
    [ s_corr; s_threshold "y_corr" "life_expectancy" (3 # 10);
      s_show_series "y_corr" ];
    [ s_pairplot "y_corr" ];
    cell_setup "y_corr" "life_expectancy" 9;
    cell_fit;
    [ s_print_train_r2; s_print_test_r2 ];
    cell_ols;
    [ s_print_summary ] ].

(** ** evaluating_stakeholder_needs.ipynb *)

(** The "fine tune the model" cell: a lower threshold, two more columns
    dropped, the same [y], and a statsmodels fit. *)
Definition cell_fine_tune : code_cell :=
  [ s_threshold "target_corr" "target" (2 # 10);
    s_select_X "target_corr"; s_fillna_X; s_drop_X ["target"; "s4"; "s6"];
    s_split 5; s_new_scaler; s_fit_transform; s_transform_test;
    s_add_constant; s_ols; s_ols_fit ].

Definition stakeholder_needs : notebook :=
  [ [ s_load_diabetes; s_db_frame ];
    [ s_print_descr ];
    [ s_corr; s_show_corr ];
    [ s_threshold "target_corr" "target" (3 # 10); s_show_series "target_corr" ];
    [ s_pairplot "target_corr" ];
    cell_setup "target_corr" "target" 5;
    cell_fit;
    [ s_print_train_r2; s_print_test_r2; s_print_test_mse ];
    cell_ols;
    [ s_print_summary ];
    cell_fine_tune;
    [ s_print_summary ];
    [ s_regplot ] ].

End Notebooks.

Abbreviation kernel L := (gmap string (value L)) (only parsing).

Arguments Outcome {L A} _ _ _.
Arguments trace {L A} _.
Arguments final {L A} _.
Arguments result {L A} _.

(** ** A small instance of the library

    The theorems below quantify over every [Library].  To evaluate runs on
    concrete tables we also need one instance: the estimators here are
    deliberately elementary (the scaler centres each column, the regression
    predicts the training mean); the permutation is numpy's for the seeds
    and sizes of the sample tables; the metrics are the textbook formulas
    over the rationals. *)
Module Sample.

Definition numbers (s : series) : libresult (list Q) :=
  fold_right (fun c acc =>
                match c, acc with
                | Num q, inr l => inr (q :: l)
                | _, inl e => inl e
                | _, _ => inl "Input contains NaN or text"
                end) (inr []) s.

Definition mean (l : list Q) : Q :=
  Qred (Qsum l / inject_Z (Z.of_nat (List.length l)))%Q.

Definition rotation (k n : nat) : list nat :=
  map (fun i => Nat.modulo (i + k) n) (seq 0 n).

(** For the seeds and sizes of the sample tables the permutation is the
    one numpy's [RandomState(seed).permutation(n)] returns (MT19937 and the
    legacy shuffle); elsewhere it is a rotation. *)
Definition permutation (g : rng) (n : nat) : list nat :=
  match g, n with
  | RandomState 9%Z, 6%nat => [5; 1; 2; 3; 0; 4]%nat
  | RandomState 9%Z, 10%nat => [8; 4; 7; 2; 1; 9; 3; 0; 6; 5]%nat
  | RandomState 5%Z, 6%nat => [5; 2; 4; 1; 0; 3]%nat
  | RandomState s, _ => rotation (Z.to_nat (Z.abs s)) n
  | GlobalState e, _ => rotation (Z.to_nat (Z.abs e)) n
  end.

Fixpoint column_means (cols : list (string * series)) : libresult (list Q) :=
  match cols with
  | [] => inr []
  | (_, s) :: cols' =>
      match numbers s, column_means cols' with
      | inr l, inr ms => inr (mean l :: ms)
      | inl e, _ => inl e
      | _, inl e => inl e
      end
  end.

Definition scaler_fit (f : frame) : libresult (list Q) :=
  if Nat.eqb (nrows f) 0 then inl "Found array with 0 sample(s)"
  else column_means (columns f).

Fixpoint centred_row (i : nat) (cols : list (string * series)) (means : list Q)
    : libresult (list Q) :=
  match cols, means with
  | (_, s) :: cols', m :: means' =>
      match nth_error s i, centred_row i cols' means' with
      | Some (Num q), inr r => inr (Qred (q - m)%Q :: r)
      | _, inl e => inl e
      | _, _ => inl "Input contains NaN or text"
      end
  | [], [] => inr []
  | _, _ => inl "X has a different number of features"
  end.

Fixpoint all_rows (rows : list nat) (cols : list (string * series))
    (means : list Q) : libresult matrix :=
  match rows with
  | [] => inr []
  | i :: rows' =>
      match centred_row i cols means, all_rows rows' cols means with
      | inr r, inr m => inr (r :: m)
      | inl e, _ => inl e
      | _, inl e => inl e
      end
  end.

Definition scaler_transform (means : list Q) (f : frame) : libresult matrix :=
  all_rows (seq 0 (nrows f)) (columns f) means.

Definition linreg_fit (X : matrix) (y : series) : libresult Q :=
  match numbers y with
  | inr l => inr (mean l)
  | inl e => inl e
  end.

Definition linreg_predict (m : Q) (X : matrix) : libresult (list Q) :=
  inr (map (fun _ => m) X).

Definition sum_sq_diff (a b : list Q) : Q :=
  Qsum (map (fun p => (fst p - snd p) * (fst p - snd p))%Q (combine a b)).

Definition mean_squared_error (y : series) (p : list Q) : libresult Q :=
  match numbers y with
  | inr l => inr (Qred (sum_sq_diff l p / inject_Z (Z.of_nat (List.length l)))%Q)
  | inl e => inl e
  end.

Definition r2_score (y : series) (p : list Q) : libresult Q :=
  match numbers y with
  | inr l =>
      let tot := sum_sq_diff l (map (fun _ => mean l) l) in
      if Qeq_bool tot 0 then inr 0%Q
      else inr (Qred (1 - sum_sq_diff l p / tot)%Q)
  | inl e => inl e
  end.

Definition linreg_score (m : Q) (X : matrix) (y : series) : libresult Q :=
  r2_score y (map (fun _ => m) X).

Definition add_constant (X : matrix) : libresult matrix :=
  inr (map (fun r => 1%Q :: r) X).

Definition OLS (y : series) (x : matrix) : libresult (series * matrix) :=
  if Nat.eqb (List.length y) (List.length x) then inr (y, x)
  else inl "endog and exog matrices are different sizes".

Definition ols_fit (m : series * matrix) : libresult (list Q) :=
  match numbers (fst m) with
  | inr l => inr [mean l]
  | inl e => inl e
  end.

Definition ols_summary (r : list Q) (xname : list string) : libresult string :=
  inr (String.concat " " ("OLS Regression Results:" :: xname)).

Definition frame_info (f : frame) : string :=
  String.concat ", " (column_names f).

Definition pairplot (f : frame) : libresult unit :=
  match columns f with
  | [] => inl "No variables found for grid columns."
  | _ => inr tt
  end.

Definition regplot (x y : string) (f : frame) : libresult unit :=
  match getitem x f, getitem y f with
  | inr _, inr _ => inr tt
  | _, _ => inl "KeyError"
  end.

Definition library : Library :=
  Build_Library (list Q) Q (series * matrix)%type (list Q)
    permutation scaler_fit scaler_transform linreg_fit linreg_predict
    linreg_score r2_score mean_squared_error add_constant OLS ols_fit
    ols_summary frame_info pairplot regplot.

(** Small tables. *)
Definition ints (l : list Z) : series := map (fun z => Num (inject_Z z)) l.

Definition air_table : frame :=
  Frame 6 [ ("temp", ints [1; 2; 3; 4; 6; 5]%Z);
            ("humidity", [Num 3; NA; Num 2; Num 5; Num 1; Num 4]);
            ("benzene", ints [1; 2; 3; 4; 5; 6]%Z) ].

Definition disk (path : string) (f : frame) : string -> option frame :=
  fun p => if String.eqb p path then Some f else None.

Definition empty_frame : frame := Frame 0 [].

Definition air_world : world :=
  World (disk "air_quality.csv" air_table) (empty_frame, "") 0.

(** The same disk seen with another generator state and more files. *)
Definition air_world' : world :=
  World (fun p => if String.eqb p "notes.csv" then Some empty_frame
                  else disk "air_quality.csv" air_table p)
    (air_table, "unused") 7.

(** A column whose correlation with the outcome is just above one half and
    rounds to 0.50. *)
Definition borderline_table : frame :=
  Frame 6 [ ("co", ints [0; 0; 0; 3; 1; 1]%Z);
            ("benzene", ints [1; 2; 3; 4; 5; 6]%Z) ].

Definition borderline_world : world :=
  World (disk "air_quality.csv" borderline_table) (empty_frame, "") 0.



Definition life_status : list string :=
  [ "Developed"; "Developing"; "Developing"; "Developed"; "Developed";
    "Developing" ].

Definition life_table : frame :=
  Frame 6 [ ("country", map Str ["A"; "B"; "C"; "D"; "E"; "F"]);
            ("status", map Str life_status);
            ("bmi", [Num 3; NA; Num 2; Num 5; Num 6; Num 7]);
            ("life_expectancy", ints [71; 62; 64; 75; 78; 80]%Z) ].

Definition life_world : world :=
  World (disk "life_expectancy.csv" life_table) (empty_frame, "") 0.

(** A life-expectancy file without the [status] column. *)
Definition no_status_table : frame :=
  Frame 2 [ ("life_expectancy", ints [71; 62]%Z) ].

Definition no_status_world : world :=
  World (disk "life_expectancy.csv" no_status_table) (empty_frame, "") 0.

Definition diabetes_table : frame :=
  Frame 6 [ ("bmi", [Num 1; NA; Num 3; Num 4; Num 6; Num 5]);
            ("s3", ints [6; 5; 3; 4; 2; 1]%Z);
            ("s4", ints [1; 3; 2; 4; 6; 5]%Z);
            ("s6", ints [2; 1; 3; 5; 4; 6]%Z);
            ("target", ints [1; 2; 3; 4; 5; 6]%Z) ].

Definition diabetes_world : world :=
  World (fun _ => None) (diabetes_table, "Diabetes dataset") 0.

(** A kernel as the split leaves it, with the given test rows. *)
Definition split_kernel (test : frame) : kernel library :=
  <["X_test" := VFrame library test]>
    (<["y_train" := VSeries library (ints [1; 2; 3; 4; 5; 6]%Z)]>
       (<["X_train" := VFrame library (fillna0 air_table)]> ∅)).

(** Two pairs of test rows for the columns of [air_table]. *)
Definition test_rows_a : frame :=
  Frame 2 [ ("temp", ints [7; 8]%Z); ("humidity", ints [2; 6]%Z);
            ("benzene", ints [7; 8]%Z) ].

Definition test_rows_b : frame :=
  Frame 2 [ ("temp", ints [0; 9]%Z); ("humidity", ints [5; 1]%Z);
            ("benzene", ints [3; 3]%Z) ].



(** Two air-quality tables that differ in rows 4 and 8 only, the test rows
    of the split with seed 9: [humidity] follows [benzene] in the first
    and not in the second. *)
Definition leak_table_a : frame :=
  Frame 10 [ ("temp", ints [2; 1; 3; 5; 4; 6; 8; 7; 10; 9]%Z);
             ("humidity", ints [1; 2; 2; 3; 3; 3; 4; 4; 5; 5]%Z);
             ("benzene", ints [1; 2; 3; 4; 5; 6; 7; 8; 9; 10]%Z) ].

Definition leak_table_b : frame :=
  Frame 10 [ ("temp", ints [2; 1; 3; 5; 4; 6; 8; 7; 10; 9]%Z);
             ("humidity", ints [1; 2; 2; 3; 0; 3; 4; 4; -6; 5]%Z);
             ("benzene", ints [1; 2; 3; 4; 5; 6; 7; 8; 9; 10]%Z) ].

Definition leak_world_a : world :=
  World (disk "air_quality.csv" leak_table_a) (empty_frame, "") 0.

Definition leak_world_b : world :=
  World (disk "air_quality.csv" leak_table_b) (empty_frame, "") 0.

(** A table in which [s4] is uncorrelated with the target. *)
Definition weak_table : frame :=
  Frame 6 [ ("bmi", ints [1; 2; 3; 4; 6; 5]%Z);
            ("s4", ints [1; -1; 0; 0; -1; 1]%Z);
            ("s6", ints [2; 1; 3; 5; 4; 6]%Z);
            ("target", ints [1; 2; 3; 4; 5; 6]%Z) ].

(** The kernel once a table and its correlation matrix are bound, and once
    a selection is bound as well. *)
Definition corr_kernel (df : frame) : kernel library :=
  <["df_corr" := VLFrame library (corr_round2 df)]>
    (<["df" := VFrame library df]> ∅).

Definition selection (df : frame) (label : string) (t : Q) : lseries :=
  match lgetitem label (corr_round2 df) with
  | inr col => threshold t col
  | inl _ => []
  end.

Definition selected_kernel (df : frame) (v label : string) (t : Q)
    : kernel library :=
  <[v := VLSeries library (selection df label t)]> (corr_kernel df).

End Sample.

(** ** The notebooks as compositions of library calls

    The same computations written without the kernel namespace: each value
    flows from the call that produces it to the calls that use it.  These
    are compared with the cell-by-cell runs below. *)
Section Direct.

Context (L : Library).

(** Outcomes put in front of a trace. *)
Definition prepend {A : Type} (es : list event) (o : outcome L A) : outcome L A :=
  Outcome (es ++ trace o) (final o) (result o).

(** Two outcomes show the same output and end the same way. *)
Definition same_output {A : Type} (o1 o2 : outcome L A) : Prop :=
  trace o1 = trace o2 /\ result o1 = result o2.

(** What the set-up cell hands to the fitting cells. *)
Record prepared : Type := Prepared {
  p_X : frame;
  p_X_train : matrix;
  p_X_test : matrix;
  p_y_train : series;
  p_y_test : series
}.

Definition direct_select (t : Q) (outcome : string) (df_corr : lframe) : M L lseries :=
  s ← lift L (lgetitem outcome df_corr);
  mret (threshold t s).

Definition direct_pairplot (df : frame) (sel : lseries) : M L unit :=
  sub ← lift L (select (index sel) df);
  _ ← libcall L (pairplot L sub);
  emit L (Figure "pairplot").

Definition direct_features (drops : list string) (df : frame) (sel : lseries)
    : M L frame :=
  X0 ← lift L (select (index sel) df);
  lift L (drop drops (fillna0 X0)).

Definition direct_split_scale (seed : Z) (X : frame) (y : series) : M L prepared :=
  sp ← train_test_split L X y (2 # 10) (Some seed);
  p ← libcall L (scaler_fit L (split_X_train sp));
  Xtr ← libcall L (scaler_transform L p (split_X_train sp));
  Xte ← libcall L (scaler_transform L p (split_X_test sp));
  mret (Prepared X Xtr Xte (split_y_train sp) (split_y_test sp)).

Definition direct_setup (outcome : string) (seed : Z) (df : frame) (sel : lseries)
    : M L (series * prepared) :=
  X ← direct_features [outcome] df sel;
  y ← lift L (getitem outcome df);
  d ← direct_split_scale seed X y;
  mret (y, d).

Definition direct_fit_report (with_mse : bool) (d : prepared) : M L unit :=
  m ← libcall L (linreg_fit L (p_X_train d) (p_y_train d));
  preds ← libcall L (linreg_predict L m (p_X_test d));
  q1 ← libcall L (linreg_score L m (p_X_train d) (p_y_train d));
  emit L (Stdout (ShNum "LinearRegression() training set r2 score: " (round2 q1)));;
  q2 ← libcall L (r2_score L (p_y_test d) preds);
  emit L (Stdout (ShNum "LinearRegression() test set r2 score: " (round2 q2)));;
  if with_mse then
    q3 ← libcall L (mean_squared_error L (p_y_test d) preds);
    emit L (Stdout (ShNum "LinearRegression() test set mean squared error: "
                      (round2 q3)))
  else mret tt.

Definition direct_ols (d : prepared) : M L (ols_results L) :=
  x ← libcall L (add_constant L (p_X_train d));
  mo ← libcall L (OLS L (p_y_train d) x);
  libcall L (ols_fit L mo).

Definition direct_summary (r : ols_results L) (X : frame) : M L unit :=
  t ← libcall L (ols_summary L r ("const" :: column_names X));
  emit L (Stdout (ShSummary t)).

(** From the pair plot to the regression summary: shared by all three. *)
Definition direct_model (with_mse : bool) (outcome : string) (seed : Z)
    (df : frame) (sel : lseries) : M L (series * prepared) :=
  direct_pairplot df sel;;
  yd ← direct_setup outcome seed df sel;
  direct_fit_report with_mse (snd yd);;
  r ← direct_ols (snd yd);
  direct_summary r (p_X (snd yd));;
  mret yd.

Definition direct_air_quality : M L unit :=
  csv ← read_csv L "air_quality.csv";
  let df := fillna0 csv in
  emit L (Stdout (ShText (frame_info L df)));;
  let df_corr := corr_round2 df in
  emit L (Display (ShLFrame df_corr));;
  sel ← direct_select (5 # 10) "benzene" df_corr;
  emit L (Display (ShLSeries sel));;
  _ ← direct_model false "benzene" 9 df sel;
  mret tt.

(** The recode of [status] is the one step that is no library call: the
    comprehension and its conditional are the notebook's own. *)
Definition direct_life_expectancy : M L unit :=
  csv ← read_csv L "life_expectancy.csv";
  status ← lift L (getitem "status" csv);
  df ← lift L (reset_index
                 (fillna0 (setitem "status" (map recode_status status) csv)));
  emit L (Stdout (ShText (frame_info L df)));;
  sel ← direct_select (3 # 10) "life_expectancy" (corr_round2 df);
  emit L (Display (ShLSeries sel));;
  _ ← direct_model false "life_expectancy" 9 df sel;
  mret tt.

Definition direct_stakeholder_needs : M L unit :=
  db ← load_diabetes L;
  let df := fst db in
  emit L (Stdout (ShText (snd db)));;
  let df_corr := corr_round2 df in
  emit L (Display (ShLFrame df_corr));;
  sel ← direct_select (3 # 10) "target" df_corr;
  emit L (Display (ShLSeries sel));;
  yd ← direct_model true "target" 5 df sel;
  sel2 ← direct_select (2 # 10) "target" df_corr;
  X ← direct_features ["target"; "s4"; "s6"] df sel2;
  d ← direct_split_scale 5 X (fst yd);
  r ← direct_ols d;
  direct_summary r X;;
  _ ← libcall L (regplot L "s3" "target" df);
  emit L (Figure "regplot").

(** ** Properties of computations used by the theorems *)

(** The computation does not look at the world (files, bundled data,
    generator state). *)
Definition world_free {A : Type} (m : M L A) : Prop :=
  forall w w' k, m w k = m w' k.

(** Everything the computation emits is notebook output. *)
Definition output_only {A : Type} (m : M L A) : Prop :=
  forall w k, forallb is_output (trace (m w k)) = true.

(** The order in which the steps first occur, auxiliary statements left
    out. *)
Fixpoint first_occurrences (seen : list step) (l : list step) : list step :=
  match l with
  | [] => []
  | s :: l' =>
      if step_eqb s Aux || existsb (step_eqb s) seen
      then first_occurrences seen l'
      else s :: first_occurrences (s :: seen) l'
  end.

Definition step_order (nb : notebook L) : list step :=
  first_occurrences [] (steps L nb).

(** The statements between the split and the prediction: standardise, then
    fit the regression. *)
Definition training_block : list (stmt L) :=
  [ s_new_scaler L; s_fit_transform L; s_transform_test L;
    s_new_linreg L; s_fit L ].

(** What the training block computes from the training rows alone: the
    scaler object and the standardised training matrix as functions of the
    value of [X_train], the fitted regression as a function of the values
    of [X_train] and [y_train]. *)
Definition scaled_train (x : option (value L))
    : option (value L) * option (value L) :=
  match x with
  | Some (VFrame _ f) =>
      match scaler_fit L f with
      | inl _ => (Some (VScaler L None), x)
      | inr p =>
          (Some (VScaler L (Some p)),
           match scaler_transform L p f with
           | inl _ => x
           | inr m => Some (VArray L m)
           end)
      end
  | _ => (Some (VScaler L None), x)
  end.

Definition fitted_model (x y : option (value L)) : option (value L) :=
  match snd (scaled_train x), y with
  | Some (VArray _ m), Some (VSeries _ ys) =>
      match linreg_fit L m ys with
      | inr md => Some (VLinReg L (Some md))
      | inl _ => None
      end
  | _, _ => None
  end.

(** What the training block leaves in [X_test]: the test rows transformed
    by the scaler that was fitted on the value of [X_train], once that
    scaler has transformed the training rows; the scaler is not fitted
    again. *)
Definition scaled_test (x xt : option (value L)) : option (value L) :=
  match fst (scaled_train x), snd (scaled_train x), xt with
  | Some (VScaler _ (Some p)), Some (VArray _ _), Some (VFrame _ ft) =>
      match scaler_transform L p ft with
      | inr m => Some (VArray L m)
      | inl _ => xt
      end
  | _, _, _ => xt
  end.

(** The rows of a table that [train_test_split] with the given seed puts
    in the training set. *)
Definition training_rows (seed : Z) (f : frame) : except frame :=
  match split_sizes (2 # 10) (nrows f) with
  | inl e => inl e
  | inr (n_train, n_test) =>
      take_frame
        (firstn n_train
           (skipn n_test (permutation L (RandomState seed) (nrows f)))) f
  end.


Definition notebooks : list (notebook L) :=
  [ stakeholder_needs L; air_quality L; life_expectancy L ].

End Direct.

(** The order of steps as the specification gives it. *)
Definition spec_order : list step :=
  [ Load; Clean; Correlate; Split; Scale; Fit; PrintMetrics; Refit ].


Definition no_missing (s : series) : Prop :=
  Forall (fun c => is_missing c = false) s.

(** The specification's reading of the thresholding step, one direct call
    on the library's correlation matrix: the numeric columns whose Pearson
    coefficient with the outcome exceeds the threshold in absolute value. *)
Definition spec_selected (t : Q) (outcome : string) (df : frame) : except (list string) :=
  match assoc outcome (numeric_columns df) with
  | None => inl (KeyError [outcome])
  | Some y =>
      inr (map fst (List.filter (fun c => pearson_abs_gt t (snd c) y)
                      (numeric_columns df)))
  end.

(** ** What a run leaves in the kernel *)
Section Facts.

Context (L : Library).

(** The table, or the labelled series, bound to a variable. *)
Definition frame_at (k : kernel L) (x : string) : option frame :=
  match k !! x with
  | Some (VFrame _ f) => Some f
  | _ => None
  end.

Definition lseries_at (k : kernel L) (x : string) : option lseries :=
  match k !! x with
  | Some (VLSeries _ s) => Some s
  | _ => None
  end.

Definition series_at (k : kernel L) (x : string) : option series :=
  match k !! x with
  | Some (VSeries _ s) => Some s
  | _ => None
  end.

Definition array_at (k : kernel L) (x : string) : option matrix :=
  match k !! x with
  | Some (VArray _ m) => Some m
  | _ => None
  end.

(** The selection bound to [v] is the thresholded column of the rounded
    correlation matrix of [df], for a threshold of at most one half. *)
Definition selection_fact (v outcome : string) (k : kernel L) : Prop :=
  match k !! "df", k !! v with
  | Some (VFrame _ df), Some (VLSeries _ s) =>
      exists t col,
        Qle_bool t (1 # 2) = true /\
        lgetitem outcome (corr_round2 df) = inr col /\
        s = threshold t col
  | _, _ => True
  end.

(** The feature matrix [X] is a selection of columns of [df], filled, with
    some columns dropped once the drop has run. *)
Definition features_fact (k : kernel L) : Prop :=
  match k !! "df", k !! "X" with
  | Some (VFrame _ df), Some (VFrame _ X) =>
      exists idx X0,
        select idx df = inr X0 /\
        (X = fillna0 X0 \/ exists names, drop names (fillna0 X0) = inr X)
  | _, _ => True
  end.

(** Once [y] is bound it is the outcome column of [df] as [df] holds it. *)
Definition outcome_fact (label : string) (k : kernel L) : Prop :=
  match k !! "y" with
  | Some (VSeries _ y) =>
      exists df, k !! "df" = Some (VFrame L df) /\ getitem label df = inr y
  | _ => True
  end.

(** The table bound to [df], notebook by notebook. *)
Definition air_loaded (w : world) (k : kernel L) : Prop :=
  match files w "air_quality.csv" with
  | Some csv => k !! "df" = Some (VFrame L (fillna0 csv))
  | None => k !! "df" = None
  end.

Definition recoded (csv : frame) (status : series) : frame :=
  fillna0 (setitem "status" (map recode_status status) csv).

Definition life_loaded (w : world) (k : kernel L) : Prop :=
  match files w "life_expectancy.csv" with
  | None => k !! "df" = None
  | Some csv =>
      match getitem "status" csv with
      | inl _ => k !! "df" = Some (VFrame L csv)
      | inr status =>
          match reset_index (recoded csv status) with
          | inl _ => k !! "df" = Some (VFrame L (recoded csv status))
          | inr df => k !! "df" = Some (VFrame L df)
          end
      end
  end.

Definition diabetes_loaded (w : world) (k : kernel L) : Prop :=
  k !! "df" = Some (VFrame L (fst (sklearn_diabetes w))).

(** A cell-by-cell run against the composition of library calls. *)
Definition run_matches (loaded : kernel L -> Prop) (v label : string)
    (o direct : outcome L unit) : Prop :=
  same_output L o direct /\
  loaded (final o) /\
  selection_fact v label (final o) /\
  features_fact (final o) /\
  outcome_fact label (final o).

End Facts.

(** ** Computations that stay inside the kernel *)
Section Local.

Context (L : Library).

(** Computations built from reads and writes of kernel variables, values
    computed from them, and notebook output: they neither touch the disk
    nor look at the state of the global generator. *)
Inductive local : forall {A : Type}, M L A -> Prop :=
| local_ret {A} (a : A) : local (mret a)
| local_raise {A} e : local (raise L e : M L A)
| local_lift {A} (r : except A) : local (lift L r)
| local_var x : local (var L x)
| local_assign x v : local (assign L x v)
| local_emit e : is_output e = true -> local (emit L e)
| local_bind {A B} (m : M L A) (f : A -> M L B) :
    local m -> (forall a, local (f a)) -> local (m ≫= f).

(** A notebook whose first statement loads the data and whose other
    statements stay inside the kernel. *)
Definition loads_once (nb : notebook L) : Prop :=
  match concat nb with
  | [] => False
  | s :: rest => kind L s = Load /\ Forall (fun s' => local (exec L s')) rest
  end.

End Local.

(** The exceptions [train_test_split] raises are about the shape of its
    arguments. *)
Definition data_error (e : exn) : Prop :=
  match e with
  | ValueError _ | IndexError => True
  | _ => False
  end.

(** ** Failure modes and the shape of the output *)


(** What kind of output an event is: the caption of a printed metric, the
    kind of a figure, and otherwise the sort of object shown. *)
Definition shape (e : event) : string :=
  match e with
  | FileRead _ => "read"
  | FileWrite _ => "write"
  | Stdout (ShNum caption _) => caption
  | Stdout _ => "text"
  | Display (ShLFrame _) => "matrix"
  | Display (ShLSeries _) => "series"
  | Display _ => "value"
  | Figure name => name
  end.


(** * Reasoning about runs *)

Section Stepping.

Context (L : Library).
Implicit Types (w : world) (k : kernel L).

Lemma bind_eq {A B} (m : M L A) (f : A -> M L B) w k :
  (m ≫= f) w k =
  match result (m w k) with
  | inl e => Outcome (trace (m w k)) (final (m w k)) (inl e)
  | inr a => prepend L (trace (m w k)) (f a w (final (m w k)))
  end.
Proof. reflexivity. Qed.

Lemma prepend_nil {A} (o : outcome L A) : prepend L [] o = o.
Proof. destruct o; reflexivity. Qed.

Lemma prepend_prepend {A} es es' (o : outcome L A) :
  prepend L es (prepend L es' o) = prepend L (es ++ es') o.
Proof. unfold prepend; cbn [trace final result]. now rewrite app_assoc. Qed.

Lemma bind_assoc {A B C} (m : M L A) (f : A -> M L B) (g : B -> M L C) w k :
  ((m ≫= f) ≫= g) w k = (m ≫= fun a => f a ≫= g) w k.
Proof.
  rewrite !bind_eq.
  destruct (m w k) as [t k' [e|a]]; cbn [result trace final]; [reflexivity|].
  rewrite !bind_eq.
  destruct (f a w k') as [t' k'' [e|b]]; cbn [result trace final prepend];
    [reflexivity|].
  now rewrite prepend_prepend.
Qed.

Lemma bind_ret {A B} (a : A) (f : A -> M L B) w k :
  (mret a ≫= f) w k = f a w k.
Proof. rewrite bind_eq. apply prepend_nil. Qed.

Lemma bind_raise {A B} e (f : A -> M L B) w k :
  (raise L e ≫= f) w k = Outcome [] k (inl e).
Proof. reflexivity. Qed.

Lemma bind_assign {B} x v (f : unit -> M L B) w k :
  (assign L x v ≫= f) w k = f tt w (<[x := v]> k).
Proof. rewrite bind_eq. apply prepend_nil. Qed.

Lemma bind_emit {B} e (f : unit -> M L B) w k :
  (emit L e ≫= f) w k = prepend L [e] (f tt w k).
Proof. reflexivity. Qed.

Lemma bind_lift {A B} (r : except A) (f : A -> M L B) w k :
  (lift L r ≫= f) w k =
  match r with inl e => Outcome [] k (inl e) | inr a => f a w k end.
Proof. rewrite bind_eq. destruct r; [reflexivity | apply prepend_nil]. Qed.

Lemma bind_libcall {A B} (r : libresult A) (f : A -> M L B) w k :
  (libcall L r ≫= f) w k =
  match r with
  | inl msg => Outcome [] k (inl (LibraryError msg))
  | inr a => f a w k
  end.
Proof. unfold libcall. rewrite bind_lift. now destruct r. Qed.

Lemma bind_var {B} x (f : value L -> M L B) w k :
  (var L x ≫= f) w k =
  match k !! x with
  | Some v => f v w k
  | None => Outcome [] k (inl (NameError x))
  end.
Proof.
  rewrite bind_eq. cbn [var result trace final].
  destruct (k !! x); [apply prepend_nil | reflexivity].
Qed.

Lemma bind_read_csv {B} path (f : frame -> M L B) w k :
  (read_csv L path ≫= f) w k =
  match files w path with
  | Some csv => prepend L [FileRead path] (f csv w k)
  | None => Outcome [FileRead path] k (inl (FileNotFoundError path))
  end.
Proof. rewrite bind_eq. cbn [read_csv result trace final]. now destruct (files w path). Qed.

Lemma bind_load_diabetes {B} (f : frame * string -> M L B) w k :
  (load_diabetes L ≫= f) w k =
  prepend L [FileRead "sklearn/datasets/data/diabetes"] (f (sklearn_diabetes w) w k).
Proof. reflexivity. Qed.

Lemma bind_split_seeded {B} X y ts seed (f : split -> M L B) w k :
  (train_test_split L X y ts (Some seed) ≫= f) w k =
  match split_with (permutation L (RandomState seed) (nrows X)) ts X y with
  | inl e => Outcome [] k (inl e)
  | inr sp => f sp w k
  end.
Proof. unfold train_test_split. now rewrite bind_assoc, bind_ret, bind_lift. Qed.

Lemma bind_fitted {A B} (o : option A) (f : A -> M L B) w k :
  (fitted L o ≫= f) w k =
  match o with
  | Some a => f a w k
  | None => Outcome [] k (inl (LibraryError "NotFittedError"))
  end.
Proof. destruct o; [apply bind_ret | reflexivity]. Qed.

(** Reading a variable at a type. *)
Ltac typed_var :=
  intros; rewrite bind_assoc, bind_var;
  match goal with |- context [?k !! ?x] => destruct (k !! x) as [[]|] end;
  first [ apply bind_ret | reflexivity ].

Lemma bind_frame_var {B} x (f : frame -> M L B) w k :
  (frame_var L x ≫= f) w k =
  match k !! x with
  | Some (VFrame _ a) => f a w k
  | Some _ => Outcome [] k (inl (TypeError x))
  | None => Outcome [] k (inl (NameError x))
  end.
Proof. unfold frame_var. typed_var. Qed.

Lemma bind_bunch_var {B} x (f : frame * string -> M L B) w k :
  (bunch_var L x ≫= f) w k =
  match k !! x with
  | Some (VBunch _ a d) => f (a, d) w k
  | Some _ => Outcome [] k (inl (TypeError x))
  | None => Outcome [] k (inl (NameError x))
  end.
Proof. unfold bunch_var. typed_var. Qed.

Lemma bind_series_var {B} x (f : series -> M L B) w k :
  (series_var L x ≫= f) w k =
  match k !! x with
  | Some (VSeries _ a) => f a w k
  | Some _ => Outcome [] k (inl (TypeError x))
  | None => Outcome [] k (inl (NameError x))
  end.
Proof. unfold series_var. typed_var. Qed.

Lemma bind_lframe_var {B} x (f : lframe -> M L B) w k :
  (lframe_var L x ≫= f) w k =
  match k !! x with
  | Some (VLFrame _ a) => f a w k
  | Some _ => Outcome [] k (inl (TypeError x))
  | None => Outcome [] k (inl (NameError x))
  end.
Proof. unfold lframe_var. typed_var. Qed.

Lemma bind_lseries_var {B} x (f : lseries -> M L B) w k :
  (lseries_var L x ≫= f) w k =
  match k !! x with
  | Some (VLSeries _ a) => f a w k
  | Some _ => Outcome [] k (inl (TypeError x))
  | None => Outcome [] k (inl (NameError x))
  end.
Proof. unfold lseries_var. typed_var. Qed.

Lemma bind_array_var {B} x (f : matrix -> M L B) w k :
  (array_var L x ≫= f) w k =
  match k !! x with
  | Some (VArray _ a) => f a w k
  | Some _ => Outcome [] k (inl (TypeError x))
  | None => Outcome [] k (inl (NameError x))
  end.
Proof. unfold array_var. typed_var. Qed.

Lemma bind_vector_var {B} x (f : list Q -> M L B) w k :
  (vector_var L x ≫= f) w k =
  match k !! x with
  | Some (VVector _ a) => f a w k
  | Some _ => Outcome [] k (inl (TypeError x))
  | None => Outcome [] k (inl (NameError x))
  end.
Proof. unfold vector_var. typed_var. Qed.

Lemma bind_scaler_var {B} x (f : option (scaler L) -> M L B) w k :
  (scaler_var L x ≫= f) w k =
  match k !! x with
  | Some (VScaler _ a) => f a w k
  | Some _ => Outcome [] k (inl (TypeError x))
  | None => Outcome [] k (inl (NameError x))
  end.
Proof. unfold scaler_var. typed_var. Qed.

Lemma bind_linreg_var {B} x (f : option (linreg L) -> M L B) w k :
  (linreg_var L x ≫= f) w k =
  match k !! x with
  | Some (VLinReg _ a) => f a w k
  | Some _ => Outcome [] k (inl (TypeError x))
  | None => Outcome [] k (inl (NameError x))
  end.
Proof. unfold linreg_var. typed_var. Qed.

Lemma bind_model_var {B} x (f : ols_model L -> M L B) w k :
  (model_var L x ≫= f) w k =
  match k !! x with
  | Some (VModel _ a) => f a w k
  | Some _ => Outcome [] k (inl (TypeError x))
  | None => Outcome [] k (inl (NameError x))
  end.
Proof. unfold model_var. typed_var. Qed.

Lemma bind_results_var {B} x (f : ols_results L -> M L B) w k :
  (results_var L x ≫= f) w k =
  match k !! x with
  | Some (VResults _ a) => f a w k
  | Some _ => Outcome [] k (inl (TypeError x))
  | None => Outcome [] k (inl (NameError x))
  end.
Proof. unfold results_var. typed_var. Qed.

Lemma run_stmts_cons (s : stmt L) l w k :
  run_stmts L (s :: l) w k = (exec L s ≫= fun _ => run_stmts L l) w k.
Proof. reflexivity. Qed.

Lemma run_stmts_nil w k : run_stmts L [] w k = Outcome [] k (inr tt).
Proof. reflexivity. Qed.

Lemma ret_eq {A} (a : A) w k : (mret a : M L A) w k = Outcome [] k (inr a).
Proof. reflexivity. Qed.

Lemma result_prepend {A} es (o : outcome L A) : result (prepend L es o) = result o.
Proof. reflexivity. Qed.

Lemma final_prepend {A} es (o : outcome L A) : final (prepend L es o) = final o.
Proof. reflexivity. Qed.

Lemma trace_prepend {A} es (o : outcome L A) : trace (prepend L es o) = es ++ trace o.
Proof. reflexivity. Qed.

End Stepping.

(** * Symbolic execution of a run, one primitive at a time *)

(** Look a variable up in a kernel given as a sequence of assignments on
    top of the empty kernel or of a kernel variable. *)
Ltac kfind K x :=
  lazymatch K with
  | @insert _ _ _ _ ?y ?v ?K' =>
      lazymatch y with
      | x => constr:(Some v)
      | _ => kfind K' x
      end
  | @empty _ _ => constr:(@None (value _))
  | _ => constr:(K !! x)
  end.

Ltac klookup :=
  lazymatch goal with
  | |- context [@lookup _ _ _ _ ?x (@insert ?a ?b ?c ?d ?y ?v ?K)] =>
      let r := kfind (@insert a b c d y v K) x in
      let H := fresh "Hk" in
      assert (H : (@insert a b c d y v K) !! x = r)
        by (repeat first [ apply lookup_insert_eq
                         | rewrite lookup_insert_ne by done ];
            first [ apply lookup_empty | reflexivity ]);
      rewrite H; clear H
  | |- context [@lookup _ _ _ _ ?x (@empty _ _)] => rewrite lookup_empty
  end.

Ltac kvar lem := rewrite lem; try klookup.

Ltac kbind :=
  lazymatch goal with
  | |- context [mbind ?f ?m ?w ?k] =>
      lazymatch m with
      | mbind _ _ => rewrite bind_assoc
      | mret _ => rewrite bind_ret
      | assign _ _ _ => rewrite bind_assign
      | emit _ _ => rewrite bind_emit
      | frame_var _ _ => kvar @bind_frame_var
      | series_var _ _ => kvar @bind_series_var
      | lframe_var _ _ => kvar @bind_lframe_var
      | lseries_var _ _ => kvar @bind_lseries_var
      | array_var _ _ => kvar @bind_array_var
      | vector_var _ _ => kvar @bind_vector_var
      | scaler_var _ _ => kvar @bind_scaler_var
      | linreg_var _ _ => kvar @bind_linreg_var
      | model_var _ _ => kvar @bind_model_var
      | results_var _ _ => kvar @bind_results_var
      | bunch_var _ _ => kvar @bind_bunch_var
      | fitted _ _ => rewrite bind_fitted
      | read_csv _ _ => rewrite bind_read_csv
      | load_diabetes _ => rewrite bind_load_diabetes
      | train_test_split _ _ _ _ (Some _) => rewrite bind_split_seeded
      | libcall _ _ => rewrite bind_libcall
      | lift _ _ => rewrite bind_lift
      | exec _ ?s =>
          let s' := eval hnf in s in
          change (exec _ s) with (exec _ s'); cbn [exec]
      | ?h => let h' := eval hnf in h in change h with h'
      end
  end.

(** A match on the result of a table operation or of a library call:
    consider both cases. *)
Ltac kcase :=
  lazymatch goal with
  | |- context [match ?r with inl _ => _ | inr _ => _ end] =>
      first [ match goal with H : r = _ |- _ => rewrite H end
            | let E := fresh "E" in destruct r as [?|?] eqn:E ]
  | |- context [match files ?w ?p with Some _ => _ | None => _ end] =>
      first [ match goal with H : files w p = _ |- _ => rewrite H end
            | let E := fresh "E" in destruct (files w p) eqn:E ]
  | |- context [match @lookup _ _ _ _ ?x ?k with Some _ => _ | None => _ end] =>
      is_var k;
      first [ match goal with H : k !! x = _ |- _ => rewrite H end
            | let E := fresh "E" in destruct (k !! x) as [[]|] eqn:E ]
  end.

Ltac ksimpl :=
  cbv beta iota zeta;
  cbn [fst snd p_X p_X_train p_X_test p_y_train p_y_test].

Ltac kstep :=
  first
    [ kcase; ksimpl
    | kbind; ksimpl
    | rewrite run_stmts_cons
    | rewrite run_stmts_nil
    | rewrite ret_eq ].

Ltac krun := repeat kstep.

Ltac kstart :=
  unfold run, air_quality, life_expectancy, stakeholder_needs,
    cell_setup, cell_fit, cell_ols, cell_fine_tune, training_block;
  cbn [concat app].

Ltac kdirect :=
  unfold direct_air_quality, direct_life_expectancy, direct_stakeholder_needs,
    direct_model, direct_summary, direct_ols, direct_fit_report, direct_setup,
    direct_split_scale, direct_features, direct_pairplot, direct_select.

(** * Exceptions of the table operations *)

Lemma getitem_error name f e : getitem name f = inl e -> e = KeyError [name].
Proof. unfold getitem. destruct (assoc name (columns f)); congruence. Qed.

Lemma lgetitem_error name m e : lgetitem name m = inl e -> e = KeyError [name].
Proof. unfold lgetitem. destruct (assoc name m); congruence. Qed.

Lemma select_error names f e :
  select names f = inl e -> e = KeyError (missing_labels names f).
Proof. unfold select. destruct (missing_labels names f); congruence. Qed.

Lemma drop_error names f e :
  drop names f = inl e -> e = KeyError (missing_labels names f).
Proof. unfold drop. destruct (missing_labels names f); congruence. Qed.

Lemma reset_index_error f e : reset_index f = inl e -> exists msg, e = ValueError msg.
Proof.
  unfold reset_index. repeat destruct (negb _); try discriminate.
  intros [= <-]. eauto.
Qed.

Lemma take_rows_error {A} idx (l : list A) e : take_rows idx l = inl e -> e = IndexError.
Proof.
  induction idx as [|i idx IH]; cbn; [discriminate|].
  destruct (nth_error l i); [|congruence].
  destruct (take_rows idx l); [|discriminate].
  intros [= <-]. now apply IH.
Qed.

Lemma take_columns_error idx cols e : take_columns idx cols = inl e -> e = IndexError.
Proof.
  induction cols as [|[n s] cols IH]; cbn; [discriminate|].
  destruct (take_rows idx s) eqn:E.
  - intros [= <-]. eapply take_rows_error, E.
  - destruct (take_columns idx cols); [|discriminate].
    intros [= <-]. now apply IH.
Qed.

Lemma take_frame_error idx f e : take_frame idx f = inl e -> e = IndexError.
Proof.
  unfold take_frame. destruct (take_columns idx (columns f)) eqn:E; [|discriminate].
  intros [= <-]. eapply take_columns_error, E.
Qed.

Lemma split_sizes_error ts n e : split_sizes ts n = inl e -> exists msg, e = ValueError msg.
Proof.
  unfold split_sizes. repeat destruct (Nat.eqb _ _); try discriminate;
    intros [= <-]; eauto.
Qed.

Lemma split_with_error perm ts X y e :
  split_with perm ts X y = inl e -> data_error e.
Proof.
  unfold split_with. destruct (negb _); [intros [= <-]; exact I|].
  destruct (split_sizes ts (nrows X)) as [e'|[ntr nte]] eqn:Es.
  - intros [= <-]. apply split_sizes_error in Es as [msg ->]. exact I.
  - repeat match goal with
      | |- context [match ?t with inl _ => _ | inr _ => _ end] =>
          destruct t eqn:?
      end; intros [= <-];
      repeat match goal with
        | H : take_frame _ _ = inl _ |- _ => apply take_frame_error in H; subst
        | H : take_rows _ _ = inl _ |- _ => apply take_rows_error in H; subst
        end; exact I.
Qed.

(** Turn an equation [op ... = inl e] into what it says about [e]. *)
Ltac error_kind :=
  repeat match goal with
    | H : getitem _ _ = inl _ |- _ => apply getitem_error in H
    | H : lgetitem _ _ = inl _ |- _ => apply lgetitem_error in H
    | H : select _ _ = inl _ |- _ => apply select_error in H
    | H : drop _ _ = inl _ |- _ => apply drop_error in H
    | H : reset_index _ = inl _ |- _ => apply reset_index_error in H as [? H]
    | H : split_with _ _ _ _ = inl _ |- _ => apply split_with_error in H
    end.

(** * Facts about the table operations *)

Lemma existsb_eqb_In n l : existsb (String.eqb n) l = true <-> In n l.
Proof.
  rewrite existsb_exists. split.
  - intros (x & Hx & He). apply String.eqb_eq in He. now subst.
  - intros H. exists n. split; [exact H | apply String.eqb_refl].
Qed.

Lemma assoc_In {A} n (l : list (string * A)) a : assoc n l = Some a -> In (n, a) l.
Proof.
  induction l as [|[y b] l IH]; cbn; [discriminate|].
  destruct (String.eqb_spec n y) as [->|_].
  - intros [= ->]. now left.
  - intros H. right. now apply IH.
Qed.

Lemma assoc_names {A} n (l : list (string * A)) :
  In n (map fst l) -> exists a, assoc n l = Some a.
Proof.
  induction l as [|[y b] l IH]; cbn; [contradiction|].
  destruct (String.eqb_spec n y) as [->|Hn]; [eauto|].
  intros [H|H]; [congruence | now apply IH].
Qed.

Lemma assoc_filter {A} (P : string * A -> bool) n l a :
  assoc n l = Some a -> P (n, a) = true -> assoc n (List.filter P l) = Some a.
Proof.
  induction l as [|[y b] l IH]; cbn; [discriminate|].
  destruct (String.eqb_spec n y) as [->|Hn].
  - intros [= ->] HP. rewrite HP. cbn. now rewrite String.eqb_refl.
  - intros H HP. destruct (P (y, b)); [|now apply IH].
    cbn. destruct (String.eqb_spec n y); [contradiction | now apply IH].
Qed.

Lemma assoc_map {A B} (g : string -> A -> B) n (l : list (string * A)) :
  assoc n (map (fun c => (fst c, g (fst c) (snd c))) l)
  = option_map (g n) (assoc n l).
Proof.
  induction l as [|[y b] l IH]; cbn; [reflexivity|].
  destruct (String.eqb_spec n y) as [->|_]; [reflexivity | exact IH].
Qed.

Lemma getitem_assoc name f s : getitem name f = inr s <-> assoc name (columns f) = Some s.
Proof.
  unfold getitem. destruct (assoc name (columns f)); split; congruence.
Qed.



Lemma missing_labels_nil names f :
  (forall n, In n names -> In n (column_names f)) -> missing_labels names f = [].
Proof.
  intros H. unfold missing_labels.
  induction names as [|n names IH]; cbn; [reflexivity|].
  rewrite (proj2 (existsb_eqb_In n _)) by (apply H; now left). cbn.
  apply IH. intros m Hm. apply H. now right.
Qed.


Lemma fill0_present c : is_missing (fill0 c) = false.
Proof. now destruct c. Qed.

Lemma no_missing_fill0 s : no_missing (map fill0 s).
Proof. apply List.Forall_forall. intros c (c0 & <- & _)%in_map_iff. apply fill0_present. Qed.

Lemma no_missing_fill0_id s : no_missing s -> map fill0 s = s.
Proof.
  induction 1 as [|c s Hc _ IH]; cbn; [reflexivity|].
  rewrite IH. now destruct c.
Qed.

Lemma fillna0_names f : column_names (fillna0 f) = column_names f.
Proof. unfold column_names, fillna0. cbn. rewrite map_map. reflexivity. Qed.

Lemma fillna0_assoc name f :
  assoc name (columns (fillna0 f)) = option_map (map fill0) (assoc name (columns f)).
Proof. unfold fillna0. cbn. apply (assoc_map (fun _ => map fill0)). Qed.


Lemma fillna0_columns name s f :
  In (name, s) (columns (fillna0 f)) ->
  exists s0, In (name, s0) (columns f) /\ s = map fill0 s0.
Proof.
  unfold fillna0. cbn. intros ([n s0] & [= <- <-] & Hin)%in_map_iff. eauto.
Qed.

Lemma select_columns names f X name s :
  select names f = inr X -> In (name, s) (columns X) ->
  assoc name (columns f) = Some s.
Proof.
  unfold select. destruct (missing_labels names f); [|discriminate].
  intros [= <-]. cbn. intros (n & Hn & Hin)%in_flat_map.
  destruct (assoc n (columns f)) eqn:E; [|contradiction].
  destruct Hin as [[= <- <-]|[]]. exact E.
Qed.

Lemma select_names names f X :
  select names f = inr X -> column_names X = names.
Proof.
  unfold select. destruct (missing_labels names f) eqn:Hm; [|discriminate].
  intros [= <-]. unfold column_names. cbn.
  assert (Hall : forall n, In n names -> In n (column_names f)).
  { intros n Hn. destruct (existsb (String.eqb n) (column_names f)) eqn:E.
    - now apply existsb_eqb_In.
    - assert (In n (missing_labels names f)) as Hin
        by (apply filter_In; split; [exact Hn | now rewrite E]).
      rewrite Hm in Hin. contradiction. }
  clear Hm. induction names as [|n names IH]; cbn; [reflexivity|].
  destruct (assoc_names n (columns f)) as [a ->]; [apply Hall; now left|].
  cbn. f_equal. apply IH. intros m Hm. apply Hall. now right.
Qed.

Lemma drop_columns names f X name s :
  drop names f = inr X -> In (name, s) (columns X) -> In (name, s) (columns f).
Proof.
  unfold drop. destruct (missing_labels names f); [|discriminate].
  intros [= <-]. cbn. now intros [H _]%filter_In.
Qed.

Lemma setitem_other name name' v f :
  name <> name' -> assoc name (columns (setitem name' v f)) = assoc name (columns f).
Proof.
  intros Hn. unfold setitem. cbn.
  induction (columns f) as [|[y b] l IH]; cbn.
  - destruct (String.eqb_spec name name'); [contradiction | reflexivity].
  - destruct (String.eqb_spec name' y) as [->|Hy]; cbn.
    + destruct (String.eqb_spec name y); [contradiction | reflexivity].
    + destruct (String.eqb_spec name y); [reflexivity | exact IH].
Qed.

Lemma setitem_same name v f s :
  assoc name (columns f) = Some s ->
  assoc name (columns (setitem name v f)) = Some v.
Proof.
  unfold setitem. cbn.
  induction (columns f) as [|[y b] l IH]; cbn; [discriminate|].
  destruct (String.eqb_spec name y) as [->|Hy]; cbn.
  - now rewrite String.eqb_refl.
  - destruct (String.eqb_spec name y); [contradiction | exact IH].
Qed.

Lemma reset_index_assoc name f f' s :
  reset_index f = inr f' -> assoc name (columns f) = Some s ->
  assoc name (columns f') = Some s.
Proof.
  unfold reset_index. cbv zeta. intros H Hs.
  assert (Hin : In name (column_names f))
    by (apply assoc_In in Hs; now apply (in_map fst) in Hs).
  apply existsb_eqb_In in Hin.
  destruct (existsb (String.eqb "index") (column_names f)) eqn:E1;
    cbn [negb] in H.
  - destruct (existsb (String.eqb "level_0") (column_names f)) eqn:E2;
      cbn [negb] in H; [discriminate|].
    injection H as <-. cbn.
    destruct (String.eqb_spec name "level_0") as [->|_]; [congruence | exact Hs].
  - injection H as <-. cbn.
    destruct (String.eqb_spec name "index") as [->|_]; [congruence | exact Hs].
Qed.

Lemma recode_status_binary d : recode_status d = Num 1 \/ recode_status d = Num 0.
Proof. destruct d as [| |s]; cbn; auto. destruct (String.eqb s "Developed"); auto. Qed.

Lemma recode_status_developed d : recode_status d = Num 1 <-> d = Str "Developed".
Proof.
  destruct d as [|q|s]; cbn; [split; discriminate..|].
  destruct (String.eqb_spec s "Developed") as [->|Hs].
  - split; reflexivity.
  - split; [discriminate | congruence].
Qed.

Lemma recode_status_present s : no_missing (map recode_status s).
Proof.
  apply List.Forall_forall. intros c (d & <- & _)%in_map_iff.
  now destruct (recode_status_binary d) as [-> | ->].
Qed.

Lemma frame_at_lookup (L : Library) (k : kernel L) x f :
  frame_at L k x = Some f <-> k !! x = Some (VFrame L f).
Proof.
  unfold frame_at. destruct (k !! x) as [[]|]; split; congruence.
Qed.

Lemma series_at_lookup (L : Library) (k : kernel L) x s :
  series_at L k x = Some s <-> k !! x = Some (VSeries L s).
Proof.
  unfold series_at. destruct (k !! x) as [[]|]; split; congruence.
Qed.

Lemma array_at_lookup (L : Library) (k : kernel L) x m :
  array_at L k x = Some m <-> k !! x = Some (VArray L m).
Proof.
  unfold array_at. destruct (k !! x) as [[]|]; split; congruence.
Qed.

Lemma lseries_at_lookup (L : Library) (k : kernel L) x s :
  lseries_at L k x = Some s <-> k !! x = Some (VLSeries L s).
Proof.
  unfold lseries_at. destruct (k !! x) as [[]|]; split; congruence.
Qed.

(** * The correlation of a column with itself *)







(** The thresholded labels are numeric columns of the table. *)
Lemma selected_are_columns t name df col n :
  lgetitem name (corr_round2 df) = inr col ->
  In n (index (threshold t col)) -> In n (column_names df).
Proof.
  unfold lgetitem, corr_round2.
  rewrite (assoc_map (fun _ c => map (fun r => (fst r, pearson_round2 (snd r) c))
                                  (numeric_columns df))).
  destruct (assoc name (numeric_columns df)); [|discriminate].
  cbn. intros [= <-]. unfold index, threshold.
  intros ([n' v] & <- & [Hin _]%filter_In)%in_map_iff.
  apply in_map_iff in Hin as ([n'' s'] & [= <- _] & Hin).
  unfold numeric_columns in Hin. apply filter_In in Hin as [Hin _].
  now apply (in_map fst) in Hin.
Qed.

(** At the end of a branch: the outputs agree and the kernel is as
    described. *)
Ltac kfact :=
  unfold selection_fact, features_fact, outcome_fact, air_loaded, life_loaded,
    diabetes_loaded, recoded;
  repeat match goal with
    | H : files _ _ = _ |- context [files _ _] => rewrite H
    | H : getitem _ _ = _ |- context [match getitem _ _ with _ => _ end] => rewrite H
    | H : reset_index _ = _ |- context [match reset_index _ with _ => _ end] => rewrite H
    end;
  repeat klookup;
  cbv beta iota;
  first
    [ exact I
    | reflexivity
    | assumption
    | eexists; split; [ reflexivity | assumption ]
    | do 2 eexists; split; [ | split; [ eassumption | reflexivity ] ]; reflexivity
    | do 2 eexists; split;
      [ eassumption | first [ left; reflexivity | right; eexists; eassumption ] ] ].

Ltac kleaf :=
  unfold run_matches, same_output;
  cbn [trace result final prepend app];
  split; [ split; reflexivity | ];
  split; [ kfact | ];
  split; [ kfact | ];
  split; kfact.

Section Runs.

Context (L : Library).

Lemma air_quality_run w :
  run_matches L (air_loaded L w) "y_corr" "benzene"
    (run L (air_quality L) w ∅) (direct_air_quality L w ∅).
Proof.
  kstart. kdirect.
  krun.
  all: kleaf.
Qed.

Lemma life_expectancy_run w :
  run_matches L (life_loaded L w) "y_corr" "life_expectancy"
    (run L (life_expectancy L) w ∅) (direct_life_expectancy L w ∅).
Proof.
  kstart. kdirect.
  krun.
  all: kleaf.
Qed.

Lemma stakeholder_needs_run w :
  run_matches L (diabetes_loaded L w) "target_corr" "target"
    (run L (stakeholder_needs L) w ∅) (direct_stakeholder_needs L w ∅).
Proof.
  kstart. kdirect.
  krun.
  all: kleaf.
Qed.

End Runs.

(** * Computations that stay inside the kernel *)
Section LocalFacts.

Context (L : Library).

Lemma local_world_free {A} (m : M L A) : local L m -> world_free L m.
Proof.
  induction 1 as [| | | | | |A B m f _ IHm _ IHf]; try (intros w w' k; reflexivity).
  intros w w' k. rewrite !bind_eq, (IHm w w' k).
  destruct (result (m w' k)); [reflexivity|]. now rewrite (IHf _ w w').
Qed.

Lemma local_output_only {A} (m : M L A) : local L m -> output_only L m.
Proof.
  induction 1 as [| | | | |e He|A B m f _ IHm _ IHf]; try (intros w k; reflexivity).
  - intros w k. cbn. now rewrite He.
  - intros w k. rewrite bind_eq. specialize (IHm w k).
    destruct (result (m w k)) as [e|a]; cbn [trace prepend]; [exact IHm|].
    rewrite forallb_app, IHm. apply IHf.
Qed.

Lemma local_libcall {A} (r : libresult A) : local L (libcall L r).
Proof. apply local_lift. Qed.

Lemma local_fitted {A} (o : option A) : local L (fitted L o).
Proof. destruct o; constructor. Qed.

Lemma local_split_seeded X y ts seed :
  local L (train_test_split L X y ts (Some seed)).
Proof. unfold train_test_split. repeat constructor. Qed.

Ltac local_var :=
  constructor; [constructor | intros []; constructor].

Lemma local_frame_var x : local L (frame_var L x).
Proof. local_var. Qed.
Lemma local_bunch_var x : local L (bunch_var L x).
Proof. local_var. Qed.
Lemma local_series_var x : local L (series_var L x).
Proof. local_var. Qed.
Lemma local_lframe_var x : local L (lframe_var L x).
Proof. local_var. Qed.
Lemma local_lseries_var x : local L (lseries_var L x).
Proof. local_var. Qed.
Lemma local_array_var x : local L (array_var L x).
Proof. local_var. Qed.
Lemma local_vector_var x : local L (vector_var L x).
Proof. local_var. Qed.
Lemma local_scaler_var x : local L (scaler_var L x).
Proof. local_var. Qed.
Lemma local_linreg_var x : local L (linreg_var L x).
Proof. local_var. Qed.
Lemma local_model_var x : local L (model_var L x).
Proof. local_var. Qed.
Lemma local_results_var x : local L (results_var L x).
Proof. local_var. Qed.

Lemma local_run_stmts l :
  Forall (fun s => local L (exec L s)) l -> local L (run_stmts L l).
Proof.
  induction 1 as [|s l Hs _ IH]; cbn [run_stmts]; [constructor|].
  constructor; [exact Hs | intros _; exact IH].
Qed.

End LocalFacts.

Create HintDb notebook discriminated.

#[export] Hint Constructors local : notebook.
#[export] Hint Resolve local_libcall local_fitted local_split_seeded
  local_frame_var local_bunch_var local_series_var local_lframe_var
  local_lseries_var local_array_var local_vector_var local_scaler_var
  local_linreg_var local_model_var local_results_var : notebook.

(** Every statement after the load stays inside the kernel. *)
Ltac local_stmt :=
  lazymatch goal with
  | |- local _ (exec _ ?s) =>
      let s' := eval hnf in s in change s with s'; cbn [exec];
      auto 20 with notebook
  end.

Ltac local_stmts :=
  unfold loads_once, air_quality, life_expectancy, stakeholder_needs,
    cell_setup, cell_fit, cell_ols, cell_fine_tune;
  cbn [concat app];
  split; [reflexivity|];
  repeat (apply List.Forall_cons; [local_stmt|]);
  apply List.Forall_nil.

Section Sources.

Context (L : Library).

Lemma air_quality_loads_once : loads_once L (air_quality L).
Proof. local_stmts. Qed.

Lemma life_expectancy_loads_once : loads_once L (life_expectancy L).
Proof. local_stmts. Qed.

Lemma stakeholder_needs_loads_once : loads_once L (stakeholder_needs L).
Proof. local_stmts. Qed.

End Sources.

Section SourceFacts.

Context (L : Library).

Lemma exec_read_csv path w k :
  exec L (s_read_csv L path) w k =
  match files w path with
  | Some csv => Outcome [FileRead path] (<["df" := VFrame L csv]> k) (inr tt)
  | None => Outcome [FileRead path] k (inl (FileNotFoundError path))
  end.
Proof.
  cbn [exec s_read_csv]. rewrite bind_read_csv.
  destruct (files w path); reflexivity.
Qed.

Lemma exec_load_diabetes w k :
  exec L (s_load_diabetes L) w k =
  Outcome [FileRead "sklearn/datasets/data/diabetes"]
    (<["db" := VBunch L (fst (sklearn_diabetes w)) (snd (sklearn_diabetes w))]> k)
    (inr tt).
Proof. reflexivity. Qed.

(** A notebook that loads once depends on the world through its first
    statement only. *)
Lemma loads_once_source nb s rest w w' k :
  loads_once L nb -> concat nb = s :: rest ->
  exec L s w k = exec L s w' k ->
  run L nb w k = run L nb w' k.
Proof.
  unfold loads_once, run. intros Hnb Hc Hs. rewrite Hc in *.
  destruct Hnb as [_ Hrest].
  rewrite !run_stmts_cons, !bind_eq, Hs.
  destruct (result (exec L s w' k)); [reflexivity|].
  now rewrite (local_world_free L _ (local_run_stmts L rest Hrest) w w').
Qed.

(** Its trace is the trace of the load followed by notebook output. *)
Lemma loads_once_trace nb s rest w k :
  loads_once L nb -> concat nb = s :: rest ->
  exists outs,
    trace (run L nb w k) = trace (exec L s w k) ++ outs /\
    forallb is_output outs = true.
Proof.
  unfold loads_once, run. intros Hnb Hc. rewrite Hc in *.
  destruct Hnb as [_ Hrest].
  rewrite run_stmts_cons, bind_eq.
  destruct (result (exec L s w k)); cbn [trace prepend].
  - exists []. now rewrite app_nil_r.
  - eexists. split; [reflexivity|].
    apply (local_output_only L _ (local_run_stmts L rest Hrest)).
Qed.

End SourceFacts.

(** ** The screen *)

Lemma screen_from_undated now n tr :
  map undated (screen_from now n tr) = map undated tr.
Proof.
  revert n. induction tr as [|e tr IH]; intros n; [reflexivity|].
  destruct e as [p|p|s|s|f]; cbn [screen_from map]; try (now rewrite IH).
  destruct s; cbn [map undated]; now rewrite IH.
Qed.

Lemma screen_from_metrics now n tr :
  List.filter is_metric (screen_from now n tr) = List.filter is_metric tr.
Proof.
  revert n. induction tr as [|e tr IH]; intros n; [reflexivity|].
  destruct e as [p|p|s|s|f]; cbn [screen_from List.filter is_metric];
    try (now rewrite IH).
  destruct s; cbn [List.filter is_metric]; now rewrite IH.
Qed.

(** C1 (as stated) fails for the regression summary: statsmodels writes the
    date and the time of the call into it, so two executions at different
    times do not show the same text, whatever the seed. *)
Lemma C1_counterexample :
  ~ (forall (L : Library) (w : world) (now1 now2 : nat -> string),
       screen now1 (trace (run L (air_quality L) w ∅))
       = screen now2 (trace (run L (air_quality L) w ∅))).
Proof.
  intros H.
  specialize (H Sample.library Sample.air_world
                (fun _ => "Tue, 02 Mar 2021 09:00:00")
                (fun _ => "Tue, 02 Mar 2021 09:00:01")).
  vm_compute in H. discriminate H.
Qed.

(** C1 (amended). For a fixed content of the disk and of the bundled
    dataset, two executions of a notebook give the same run whatever the
    state of numpy's global generator: the same splits in the kernel, the
    same result, the same output.  Whatever the clock, their screens show
    the same printed metrics and are the same once the date and time of
    the regression summaries are blanked: the summaries differ in those two
    lines at most.  Every [train_test_split] in the main notebook is called
    with [random_state=5], every one in the exercise notebooks with
    [random_state=9]. *)
Theorem C1_runs_repeat_up_to_the_clock (L : Library) fs db e1 e2
    (now1 now2 : nat -> string) :
  (run L (stakeholder_needs L) (World fs db e1) ∅
     = run L (stakeholder_needs L) (World fs db e2) ∅ /\
   run L (air_quality L) (World fs db e1) ∅
     = run L (air_quality L) (World fs db e2) ∅ /\
   run L (life_expectancy L) (World fs db e1) ∅
     = run L (life_expectancy L) (World fs db e2) ∅) /\
  (forall nb, In nb (notebooks L) ->
     map undated (screen now1 (trace (run L nb (World fs db e1) ∅)))
     = map undated (screen now2 (trace (run L nb (World fs db e2) ∅))) /\
     List.filter is_metric (screen now1 (trace (run L nb (World fs db e1) ∅)))
     = List.filter is_metric (screen now2 (trace (run L nb (World fs db e2) ∅)))) /\
  (forall s, In s (concat (stakeholder_needs L)) -> kind L s = Split ->
             s = s_split L 5) /\
  (forall s, In s (concat (air_quality L) ++ concat (life_expectancy L)) ->
             kind L s = Split -> s = s_split L 9).
Proof.
  assert (Hruns :
    run L (stakeholder_needs L) (World fs db e1) ∅
      = run L (stakeholder_needs L) (World fs db e2) ∅ /\
    run L (air_quality L) (World fs db e1) ∅
      = run L (air_quality L) (World fs db e2) ∅ /\
    run L (life_expectancy L) (World fs db e1) ∅
      = run L (life_expectancy L) (World fs db e2) ∅).
  { split; [|split].
    - eapply loads_once_source;
        [apply stakeholder_needs_loads_once | reflexivity | reflexivity].
    - eapply loads_once_source;
        [apply air_quality_loads_once | reflexivity | ].
      now rewrite !exec_read_csv.
    - eapply loads_once_source;
        [apply life_expectancy_loads_once | reflexivity | ].
      now rewrite !exec_read_csv. }
  split; [exact Hruns|]. split; [|split].
  - intros nb Hnb.
    assert (Hnb' : run L nb (World fs db e1) ∅ = run L nb (World fs db e2) ∅).
    { destruct Hruns as (H1 & H2 & H3). cbn [notebooks In] in Hnb.
      destruct Hnb as [<-|[<-|[<-|[]]]]; [exact H1 | exact H2 | exact H3]. }
    rewrite Hnb'. unfold screen.
    rewrite !screen_from_undated, !screen_from_metrics. split; reflexivity.
  - intros s Hs Hk. cbn in Hs.
    repeat (destruct Hs as [<-|Hs]; [first [discriminate Hk | reflexivity]|]).
    contradiction.
  - intros s Hs Hk. cbn in Hs.
    repeat (destruct Hs as [<-|Hs]; [first [discriminate Hk | reflexivity]|]).
    contradiction.
Qed.

(** Without a seed the split does depend on the generator state: the
    seeds are what makes the runs repeatable. *)
Lemma unseeded_split_depends_on_entropy :
  let X := Sample.air_table in
  let y := Sample.ints [1; 2; 3; 4; 5; 6]%Z in
  result (train_test_split Sample.library X y (2 # 10) None
            (World (fun _ => None) (Sample.empty_frame, "") 0) ∅)
  <> result (train_test_split Sample.library X y (2 # 10) None
               (World (fun _ => None) (Sample.empty_frame, "") 1) ∅).
Proof. vm_compute. discriminate. Qed.

(** C7. A run reads from disk once, first of all (the CSV file of the
    exercise notebooks, the dataset bundled with scikit-learn in the main
    notebook); everything else it emits is notebook output (text, displayed
    values, figures), so nothing is written and nothing is read again; and
    the whole run depends on the world only through what that one read
    returns. *)
Theorem C7_one_read_then_output_only (L : Library) w :
  ((exists outs,
      trace (run L (air_quality L) w ∅) = FileRead "air_quality.csv" :: outs /\
      forallb is_output outs = true) /\
   (forall w', files w' "air_quality.csv" = files w "air_quality.csv" ->
               run L (air_quality L) w' ∅ = run L (air_quality L) w ∅)) /\
  ((exists outs,
      trace (run L (life_expectancy L) w ∅)
        = FileRead "life_expectancy.csv" :: outs /\
      forallb is_output outs = true) /\
   (forall w', files w' "life_expectancy.csv" = files w "life_expectancy.csv" ->
               run L (life_expectancy L) w' ∅ = run L (life_expectancy L) w ∅)) /\
  ((exists outs,
      trace (run L (stakeholder_needs L) w ∅)
        = FileRead "sklearn/datasets/data/diabetes" :: outs /\
      forallb is_output outs = true) /\
   (forall w', sklearn_diabetes w' = sklearn_diabetes w ->
               run L (stakeholder_needs L) w' ∅ = run L (stakeholder_needs L) w ∅)).
Proof.
  split; [split|split; split].
  - destruct (loads_once_trace L _ _ _ w ∅ (air_quality_loads_once L) eq_refl)
      as (outs & Ht & Ho).
    rewrite exec_read_csv in Ht. exists outs. split; [|exact Ho].
    rewrite Ht. now destruct (files w "air_quality.csv").
  - intros w' Hw. eapply loads_once_source;
      [apply air_quality_loads_once | reflexivity | ].
    now rewrite !exec_read_csv, Hw.
  - destruct (loads_once_trace L _ _ _ w ∅ (life_expectancy_loads_once L) eq_refl)
      as (outs & Ht & Ho).
    rewrite exec_read_csv in Ht. exists outs. split; [|exact Ho].
    rewrite Ht. now destruct (files w "life_expectancy.csv").
  - intros w' Hw. eapply loads_once_source;
      [apply life_expectancy_loads_once | reflexivity | ].
    now rewrite !exec_read_csv, Hw.
  - destruct (loads_once_trace L _ _ _ w ∅ (stakeholder_needs_loads_once L) eq_refl)
      as (outs & Ht & Ho).
    exists outs. split; [|exact Ho]. exact Ht.
  - intros w' Hw. eapply loads_once_source;
      [apply stakeholder_needs_loads_once | reflexivity | ].
    now rewrite !exec_load_diabetes, Hw.
Qed.
Section ScopingFacts.
Context (L : Library).

Ltac no_name_error :=
  kdirect; krun; cbn [result prepend]; try discriminate;
  error_kind; subst; try discriminate;
  match goal with
  | H : data_error ?e |- _ => intros [= ->]; contradiction
  end.

Lemma direct_air_quality_scoped w x :
  result (direct_air_quality L w ∅) <> inl (NameError x).
Proof. no_name_error. Qed.

Lemma direct_life_expectancy_scoped w x :
  result (direct_life_expectancy L w ∅) <> inl (NameError x).
Proof. no_name_error. Qed.

Lemma direct_stakeholder_needs_scoped w x :
  result (direct_stakeholder_needs L w ∅) <> inl (NameError x).
Proof. no_name_error. Qed.

End ScopingFacts.

(** C3 (as stated) fails: in the main notebook the first correlation comes
    before the first fill, so its steps do not first occur in the order
    load, clean, correlate, ... *)
Lemma C3_counterexample :
  ~ (forall (L : Library) (nb : notebook L),
       In nb (notebooks L) -> step_order L nb = spec_order).
Proof.
  intros H.
  specialize (H Sample.library (stakeholder_needs Sample.library) (or_introl eq_refl)).
  discriminate H.
Qed.

(** C3 (amended). The two exercise notebooks perform their steps in the
    order load, clean, correlate, split, scale, fit, print metrics, refit;
    the main notebook correlates before it cleans (its only fill is applied
    to the selected features, after the correlation matrix was computed on
    the unfilled table) and is otherwise in the same order.  In all three
    notebooks no statement reads a variable that only a later statement
    binds: a run in order never raises NameError. *)
Theorem C3_step_order_and_scoping (L : Library) :
  step_order L (air_quality L) = spec_order /\
  step_order L (life_expectancy L) = spec_order /\
  step_order L (stakeholder_needs L)
    = [Load; Correlate; Clean; Split; Scale; Fit; PrintMetrics; Refit] /\
  (forall w x,
      result (run L (air_quality L) w ∅) <> inl (NameError x) /\
      result (run L (life_expectancy L) w ∅) <> inl (NameError x) /\
      result (run L (stakeholder_needs L) w ∅) <> inl (NameError x)).
Proof.
  split; [reflexivity|]. split; [reflexivity|]. split; [reflexivity|].
  intros w x. split; [|split].
  - destruct (air_quality_run L w) as [[_ ->] _]. apply direct_air_quality_scoped.
  - destruct (life_expectancy_run L w) as [[_ ->] _].
    apply direct_life_expectancy_scoped.
  - destruct (stakeholder_needs_run L w) as [[_ ->] _].
    apply direct_stakeholder_needs_scoped.
Qed.

(** * What the load cells do to the columns *)
Section Loading.

Context (L : Library).

(** The table left in [df] by the life-expectancy notebook once the recode
    has run: the recoded and filled table, with the old index in front when
    [reset_index] went through. *)
Lemma life_expectancy_df w csv status df :
  files w "life_expectancy.csv" = Some csv ->
  getitem "status" csv = inr status ->
  frame_at L (final (run L (life_expectancy L) w ∅)) "df" = Some df ->
  forall name s,
    assoc name (columns (recoded csv status)) = Some s ->
    assoc name (columns df) = Some s.
Proof.
  intros Hf Hst Hdf%frame_at_lookup name s Hs.
  destruct (life_expectancy_run L w) as (_ & Hl & _).
  unfold life_loaded in Hl. rewrite Hf, Hst in Hl.
  destruct (reset_index (recoded csv status)) as [e|df'] eqn:Er;
    rewrite Hl in Hdf; injection Hdf as <-; [exact Hs|].
  eapply reset_index_assoc; eassumption.
Qed.

Lemma recoded_other csv status name s0 :
  name <> "status" -> getitem name csv = inr s0 ->
  assoc name (columns (recoded csv status)) = Some (map fill0 s0).
Proof.
  intros Hn Hs. apply getitem_assoc in Hs. unfold recoded.
  now rewrite fillna0_assoc, setitem_other, Hs.
Qed.

Lemma recoded_status csv status :
  getitem "status" csv = inr status ->
  assoc "status" (columns (recoded csv status)) = Some (map recode_status status).
Proof.
  intros Hs. apply getitem_assoc in Hs. unfold recoded.
  rewrite fillna0_assoc, (setitem_same _ _ _ _ Hs). cbn.
  now rewrite no_missing_fill0_id by apply recode_status_present.
Qed.

End Loading.

(** C6 (as stated) fails: the life-expectancy notebook does not take every
    column as loaded.  With a [status] column of strings the table it works
    on holds numbers in that column. *)
Lemma C6_counterexample :
  ~ (forall (L : Library) (w : world) csv df name s0,
       files w "life_expectancy.csv" = Some csv ->
       frame_at L (final (run L (life_expectancy L) w ∅)) "df" = Some df ->
       getitem name csv = inr s0 ->
       getitem name df = inr (map fill0 s0)).
Proof.
  intros H.
  specialize (H Sample.library Sample.life_world Sample.life_table
                (Frame 6 (("index", range_cells 6)
                          :: columns (recoded Sample.life_table
                                        (map Str Sample.life_status))))
                "status" (map Str Sample.life_status)).
  assert (Hc : getitem "status"
                 (Frame 6 (("index", range_cells 6)
                           :: columns (recoded Sample.life_table
                                         (map Str Sample.life_status))))
               = inr (map fill0 (map Str Sample.life_status))).
  { apply H; [reflexivity | vm_compute; reflexivity | reflexivity]. }
  vm_compute in Hc. discriminate Hc.
Qed.

(** C6 (amended). The notebooks neither parse nor validate what they load,
    and they keep every column as loaded up to the fill of missing cells,
    with one exception: the life-expectancy notebook converts its [status]
    column from text to 0/1.  In the air-quality notebook [df] is the
    loaded table with missing cells filled; in the life-expectancy
    notebook, once the recode has run, every column other than [status] is
    the loaded column with missing cells filled, and [status] is the
    recoded column. *)
Theorem C6_columns_as_loaded_except_status (L : Library) (w : world) :
  (forall csv,
      files w "air_quality.csv" = Some csv ->
      frame_at L (final (run L (air_quality L) w ∅)) "df" = Some (fillna0 csv)) /\
  (forall csv status df,
      files w "life_expectancy.csv" = Some csv ->
      getitem "status" csv = inr status ->
      frame_at L (final (run L (life_expectancy L) w ∅)) "df" = Some df ->
      (forall name s0,
          name <> "status" -> getitem name csv = inr s0 ->
          getitem name df = inr (map fill0 s0)) /\
      getitem "status" df = inr (map recode_status status)).
Proof.
  split.
  - intros csv Hf. destruct (air_quality_run L w) as (_ & Hl & _).
    unfold air_loaded in Hl. rewrite Hf in Hl. now apply frame_at_lookup.
  - intros csv status df Hf Hst Hdf. split.
    + intros name s0 Hn Hs. apply getitem_assoc.
      eapply life_expectancy_df; eauto. now apply recoded_other.
    + apply getitem_assoc. eapply life_expectancy_df; eauto.
      now apply recoded_status.
Qed.

(** C10. In the life-expectancy notebook the [status] column is recoded to
    0/1: a row gets 1 exactly when its loaded value is the string
    "Developed" and 0 otherwise (any other string, a number, a missing
    value).  The recode is the statement right after the read and before
    the fill, so once it has run the [status] column of [df] holds only 0
    and 1, computed from the values as loaded. *)
Theorem C10_status_recode (L : Library) (w : world) csv status df :
  files w "life_expectancy.csv" = Some csv ->
  getitem "status" csv = inr status ->
  frame_at L (final (run L (life_expectancy L) w ∅)) "df" = Some df ->
  getitem "status" df = inr (map recode_status status) /\
  Forall (fun c => c = Num 1 \/ c = Num 0) (map recode_status status) /\
  (forall d, recode_status d = Num 1 <-> d = Str "Developed") /\
  (forall d, d <> Str "Developed" -> recode_status d = Num 0) /\
  firstn 3 (concat (life_expectancy L))
    = [ s_read_csv L "life_expectancy.csv"; s_recode_status L; s_fillna_df L ].
Proof.
  intros Hf Hst Hdf. split; [|split; [|split; [|split]]].
  - apply getitem_assoc. eapply life_expectancy_df; eauto.
    now apply recoded_status.
  - apply List.Forall_forall. intros c (d & <- & _)%in_map_iff.
    apply recode_status_binary.
  - apply recode_status_developed.
  - intros d Hd. destruct (recode_status_binary d) as [H|H]; [|exact H].
    now apply recode_status_developed in H.
  - reflexivity.
Qed.

(** * Missing values *)
Section Cleaning.

Context (L : Library).

(** Every column of the feature matrix is the column of [df] of the same
    name with its missing cells replaced by 0. *)
Lemma features_filled (k : kernel L) df X name s :
  features_fact L k ->
  k !! "df" = Some (VFrame L df) -> k !! "X" = Some (VFrame L X) ->
  In (name, s) (columns X) ->
  exists s0, getitem name df = inr s0 /\ s = map fill0 s0.
Proof.
  unfold features_fact. intros Hf Hdf HX Hin. rewrite Hdf, HX in Hf.
  destruct Hf as (idx & X0 & Hsel & HX0).
  assert (Hin' : In (name, s) (columns (fillna0 X0))).
  { destruct HX0 as [-> | [names Hd]]; [exact Hin|].
    eapply drop_columns; eassumption. }
  apply fillna0_columns in Hin' as (s0 & Hin0 & ->).
  exists s0. split; [|reflexivity].
  apply getitem_assoc. eapply select_columns; eassumption.
Qed.

Lemma fillna0_no_missing f name s :
  In (name, s) (columns (fillna0 f)) -> no_missing s.
Proof. intros (s0 & _ & ->)%fillna0_columns. apply no_missing_fill0. Qed.

Lemma reset_index_no_missing f f' :
  reset_index f = inr f' ->
  (forall name s, In (name, s) (columns f) -> no_missing s) ->
  forall name s, In (name, s) (columns f') -> no_missing s.
Proof.
  unfold reset_index. cbv zeta. intros H Hf name s Hin.
  assert (Hr : no_missing (range_cells (nrows f))).
  { apply List.Forall_forall. now intros c (i & <- & _)%in_map_iff. }
  repeat destruct (negb _); try discriminate; injection H as <-;
    destruct Hin as [[= <- <-]|Hin]; eauto.
Qed.

(** Once bound, the outcome [y] is a column of [df] as [df] holds it. *)
Lemma outcome_column (k : kernel L) label y :
  outcome_fact L label k -> series_at L k "y" = Some y ->
  exists df, frame_at L k "df" = Some df /\ getitem label df = inr y.
Proof.
  unfold outcome_fact. intros Ho Hy%series_at_lookup. rewrite Hy in Ho.
  destruct Ho as (df & Hdf & Hg). exists df. split; [|exact Hg].
  now apply frame_at_lookup.
Qed.

End Cleaning.



(** * Failures *)
Section Failures.

Context (L : Library).

(** When a statement raises, the run ends there with that exception: the
    trace and the kernel are as the failing statement left them, and the
    statements after it have no effect. *)
Lemma run_stmts_stops pre s post w (k : kernel L) e :
  result (run_stmts L pre w k) = inr tt ->
  result (exec L s w (final (run_stmts L pre w k))) = inl e ->
  run_stmts L (pre ++ s :: post) w k =
  Outcome (trace (run_stmts L pre w k)
           ++ trace (exec L s w (final (run_stmts L pre w k))))
    (final (exec L s w (final (run_stmts L pre w k)))) (inl e).
Proof.
  revert k. induction pre as [|a pre IH]; intros k Hpre Hs.
  - cbn [app]. rewrite run_stmts_cons, bind_eq.
    rewrite run_stmts_nil in Hs |- *. cbn [final trace app] in Hs |- *.
    now rewrite Hs.
  - cbn [app]. rewrite run_stmts_cons, bind_eq in Hpre, Hs |- *.
    rewrite run_stmts_cons, bind_eq.
    destruct (result (exec L a w k)) as [ea|[]]; cbn [result] in Hpre;
      [discriminate|].
    rewrite result_prepend in Hpre. rewrite final_prepend in Hs |- *.
    rewrite (IH _ Hpre Hs), trace_prepend.
    unfold prepend. cbn [trace final result]. now rewrite app_assoc.
Qed.

Lemma air_quality_missing_file w :
  files w "air_quality.csv" = None ->
  run L (air_quality L) w ∅
  = Outcome [FileRead "air_quality.csv"] ∅
      (inl (FileNotFoundError "air_quality.csv")).
Proof.
  intros Hf. kstart. now rewrite run_stmts_cons, bind_eq, exec_read_csv, Hf.
Qed.

Lemma life_expectancy_missing_file w :
  files w "life_expectancy.csv" = None ->
  run L (life_expectancy L) w ∅
  = Outcome [FileRead "life_expectancy.csv"] ∅
      (inl (FileNotFoundError "life_expectancy.csv")).
Proof.
  intros Hf. kstart. now rewrite run_stmts_cons, bind_eq, exec_read_csv, Hf.
Qed.

Lemma life_expectancy_bad_status w csv e :
  files w "life_expectancy.csv" = Some csv ->
  getitem "status" csv = inl e ->
  run L (life_expectancy L) w ∅
  = Outcome [FileRead "life_expectancy.csv"] (<["df" := VFrame L csv]> ∅)
      (inl (KeyError ["status"])).
Proof.
  intros Hf Hst. pose proof (getitem_error _ _ _ Hst) as ->.
  kstart. krun. reflexivity.
Qed.

Lemma air_quality_bad_outcome w csv e :
  files w "air_quality.csv" = Some csv ->
  lgetitem "benzene" (corr_round2 (fillna0 csv)) = inl e ->
  let o := run L (air_quality L) w ∅ in
  result o = inl (KeyError ["benzene"]) /\
  trace o = [ FileRead "air_quality.csv";
              Stdout (ShText (frame_info L (fillna0 csv)));
              Display (ShLFrame (corr_round2 (fillna0 csv))) ] /\
  frame_at L (final o) "df" = Some (fillna0 csv) /\
  lseries_at L (final o) "y_corr" = None.
Proof.
  intros Hf Hl. pose proof (lgetitem_error _ _ _ Hl) as ->.
  cbv zeta. kstart. krun. cbn [result trace final prepend app].
  unfold frame_at, lseries_at.
  repeat split; try reflexivity; klookup; reflexivity.
Qed.

End Failures.

(** C5. A failure stops the notebook.  When a statement raises, the run
    ends with that exception; what was printed before stays printed, the
    kernel stays as the failing statement left it (nothing is restored),
    and no later statement runs, so no alternative result is produced.  In
    particular: a missing CSV file ends the run at the read with
    FileNotFoundError and an empty kernel; a CSV without the [status]
    column ends the life-expectancy run at the recode with KeyError, [df]
    being the table as read; a table without a numeric [benzene] column
    ends the air-quality run at the selection with KeyError, nothing being
    selected. *)
Theorem C5_failures_stop_the_run (L : Library) (w : world) :
  (forall pre s post (k : kernel L) e,
      result (run_stmts L pre w k) = inr tt ->
      result (exec L s w (final (run_stmts L pre w k))) = inl e ->
      run_stmts L (pre ++ s :: post) w k =
      Outcome (trace (run_stmts L pre w k)
               ++ trace (exec L s w (final (run_stmts L pre w k))))
        (final (exec L s w (final (run_stmts L pre w k)))) (inl e)) /\
  (files w "air_quality.csv" = None ->
   run L (air_quality L) w ∅
   = Outcome [FileRead "air_quality.csv"] ∅
       (inl (FileNotFoundError "air_quality.csv"))) /\
  (files w "life_expectancy.csv" = None ->
   run L (life_expectancy L) w ∅
   = Outcome [FileRead "life_expectancy.csv"] ∅
       (inl (FileNotFoundError "life_expectancy.csv"))) /\
  (forall csv e,
      files w "life_expectancy.csv" = Some csv ->
      getitem "status" csv = inl e ->
      run L (life_expectancy L) w ∅
      = Outcome [FileRead "life_expectancy.csv"] (<["df" := VFrame L csv]> ∅)
          (inl (KeyError ["status"]))) /\
  (forall csv e,
      files w "air_quality.csv" = Some csv ->
      lgetitem "benzene" (corr_round2 (fillna0 csv)) = inl e ->
      result (run L (air_quality L) w ∅) = inl (KeyError ["benzene"]) /\
      trace (run L (air_quality L) w ∅)
        = [ FileRead "air_quality.csv";
            Stdout (ShText (frame_info L (fillna0 csv)));
            Display (ShLFrame (corr_round2 (fillna0 csv))) ] /\
      frame_at L (final (run L (air_quality L) w ∅)) "df" = Some (fillna0 csv) /\
      lseries_at L (final (run L (air_quality L) w ∅)) "y_corr" = None).
Proof.
  split; [|split; [|split; [|split]]].
  - intros. now apply run_stmts_stops.
  - apply air_quality_missing_file.
  - apply life_expectancy_missing_file.
  - apply life_expectancy_bad_status.
  - intros csv e Hf Hl. exact (air_quality_bad_outcome L w csv e Hf Hl).
Qed.
(** * The spread of a column *)













(** ** The outcome column in the correlation matrix *)








(** * The outcome column and the selection *)











Section Selection.

Context (L : Library).












End Selection.



(** * The training block *)
Ltac training_leaf :=
  unfold scaled_test, fitted_model, scaled_train;
  repeat first
    [ progress cbn [fst snd result final trace prepend]
    | match goal with
      | H : ?r = _ |- context [match ?r with _ => _ end] => rewrite H
      end ];
  repeat split; intros; repeat klookup;
  first [ reflexivity | discriminate | assumption ].

Section Training.

Context (L : Library).

(** What the scaling and fitting statements leave in the kernel, computed
    from the values of [X_train], [y_train] and [X_test] they start from. *)
Lemma training_block_run w (k : kernel L) :
  let o := run_stmts L (training_block L) w k in
  final o !! "sc" = fst (scaled_train L (k !! "X_train")) /\
  final o !! "X_train" = snd (scaled_train L (k !! "X_train")) /\
  final o !! "X_test" = scaled_test L (k !! "X_train") (k !! "X_test") /\
  (result o = inr tt ->
   final o !! "lr" = fitted_model L (k !! "X_train") (k !! "y_train")).
Proof.
  cbv zeta. unfold training_block. krun. all: training_leaf.
Qed.

End Training.

(** C9 (as stated) fails for whole runs: the feature columns are chosen by
    correlations computed on all the rows, before the split.  Two
    air-quality tables with the same training rows and different test rows
    give different standardised training matrices: [humidity] is selected
    in one run and not in the other. *)
Lemma C9_counterexample :
  ~ (forall (L : Library) (w w' : world) csv csv',
       files w "air_quality.csv" = Some csv ->
       files w' "air_quality.csv" = Some csv' ->
       training_rows L 9 csv = training_rows L 9 csv' ->
       array_at L (final (run L (air_quality L) w ∅)) "X_train"
       = array_at L (final (run L (air_quality L) w' ∅)) "X_train").
Proof.
  intros H.
  specialize (H Sample.library Sample.leak_world_a Sample.leak_world_b
                Sample.leak_table_a Sample.leak_table_b
                eq_refl eq_refl ltac:(vm_compute; reflexivity)).
  vm_compute in H. discriminate H.
Qed.

(** C9 (amended). Standardisation and fitting see the training rows only,
    from the split on.  The statements between the split and the
    prediction are, in every notebook, [sc = StandardScaler()],
    [sc.fit_transform(X_train)], [sc.transform(X_test)],
    [lr = LinearRegression()], [lr.fit(X_train, y_train)].  Started from
    two kernels that agree on [X_train] and [y_train] (and may differ in
    everything else, test rows included), they leave the same scaler and
    the same standardised [X_train], and, when both runs get through, the
    same fitted regression: each is a function of the training rows alone.
    [X_test] is only transformed, by the scaler fitted on [X_train].  No
    other statement of a notebook fits a scaler or [lr].  (What comes
    before the split is not covered: the columns of [X] are selected by
    correlations over all the rows.) *)
Theorem C9_fitting_sees_training_rows_only (L : Library) (w w' : world)
    (k1 k2 : kernel L) :
  k1 !! "X_train" = k2 !! "X_train" ->
  k1 !! "y_train" = k2 !! "y_train" ->
  let o1 := run_stmts L (training_block L) w k1 in
  let o2 := run_stmts L (training_block L) w' k2 in
  (final o1 !! "sc" = final o2 !! "sc" /\
   final o1 !! "X_train" = final o2 !! "X_train" /\
   (result o1 = inr tt -> result o2 = inr tt ->
    final o1 !! "lr" = final o2 !! "lr")) /\
  (final o1 !! "sc" = fst (scaled_train L (k1 !! "X_train")) /\
   final o1 !! "X_train" = snd (scaled_train L (k1 !! "X_train")) /\
   final o1 !! "X_test" = scaled_test L (k1 !! "X_train") (k1 !! "X_test") /\
   (result o1 = inr tt ->
    final o1 !! "lr" = fitted_model L (k1 !! "X_train") (k1 !! "y_train"))) /\
  (firstn 5 (skipn 13 (concat (air_quality L))) = training_block L /\
   firstn 5 (skipn 14 (concat (life_expectancy L))) = training_block L /\
   firstn 5 (skipn 13 (concat (stakeholder_needs L))) = training_block L) /\
  (forall nb s, In nb (notebooks L) -> In s (concat nb) ->
      (kind L s = Scale ->
       s = s_new_scaler L \/ s = s_fit_transform L \/ s = s_transform_test L) /\
      (kind L s = Fit -> s = s_fit L)).
Proof.
  intros HX Hy. cbv zeta.
  destruct (training_block_run L w k1) as (Hs1 & Hx1 & Ht1 & Hl1).
  destruct (training_block_run L w' k2) as (Hs2 & Hx2 & _ & Hl2).
  split; [|split; [|split]].
  - rewrite Hs1, Hs2, Hx1, Hx2, HX.
    split; [reflexivity|]. split; [reflexivity|].
    intros H1 H2. now rewrite (Hl1 H1), (Hl2 H2), HX, Hy.
  - split; [exact Hs1|]. split; [exact Hx1|]. split; [exact Ht1 | exact Hl1].
  - split; [reflexivity|]. split; reflexivity.
  - intros nb s Hnb Hs. cbn [notebooks In] in Hnb.
    destruct Hnb as [<-|[<-|[<-|[]]]]; cbn in Hs;
      repeat (destruct Hs as [<-|Hs];
              [split; intros Hk;
               first [ discriminate Hk | reflexivity | left; reflexivity
                     | right; left; reflexivity | right; right; reflexivity ]|]);
      contradiction.
Qed.

(** * The runs as compositions of library calls *)
Ltac store_free := kdirect; krun; reflexivity.

Section Composition.

Context (L : Library).

Lemma direct_air_quality_store_free w : final (direct_air_quality L w ∅) = ∅.
Proof. store_free. Qed.

Lemma direct_life_expectancy_store_free w :
  final (direct_life_expectancy L w ∅) = ∅.
Proof. store_free. Qed.

Lemma direct_stakeholder_needs_store_free w :
  final (direct_stakeholder_needs L w ∅) = ∅.
Proof. store_free. Qed.

(** The selection is the thresholded column of the rounded correlation
    matrix of [df]. *)
Lemma selection_chain v label (k : kernel L) df s :
  selection_fact L v label k ->
  frame_at L k "df" = Some df -> lseries_at L k v = Some s ->
  exists t col,
    Qle_bool t (1 # 2) = true /\
    lgetitem label (corr_round2 df) = inr col /\ s = threshold t col.
Proof.
  unfold selection_fact. intros H Hdf%frame_at_lookup Hs%lseries_at_lookup.
  now rewrite Hdf, Hs in H.
Qed.

(** The feature matrix is [df[index]], then [fillna(0)], then [drop]. *)
Lemma features_chain (k : kernel L) df X :
  features_fact L k ->
  frame_at L k "df" = Some df -> frame_at L k "X" = Some X ->
  exists idx X0,
    select idx df = inr X0 /\
    (X = fillna0 X0 \/ exists names, drop names (fillna0 X0) = inr X).
Proof.
  unfold features_fact. intros H Hdf%frame_at_lookup HX%frame_at_lookup.
  now rewrite Hdf, HX in H.
Qed.

(** [s[np.absolute(s) > t]] keeps the entries that are numbers of absolute
    value above [t], and only those. *)
Lemma threshold_spec t col n c :
  In (n, c) (threshold t col)
  <-> In (n, c) col /\ exists q, c = Num q /\ (t < Qabs q)%Q.
Proof.
  unfold threshold. rewrite List.filter_In. cbn [snd]. unfold abs_gt.
  split.
  - intros [Hin Hc]. split; [exact Hin|]. destruct c as [|q|]; try discriminate.
    exists q. split; [reflexivity|]. apply negb_true_iff in Hc.
    apply Qnot_le_lt. intros Hle%Qle_bool_iff. congruence.
  - intros [Hin (q & -> & Hq)]. split; [exact Hin|]. apply negb_true_iff.
    destruct (Qle_bool (Qabs q) t) eqn:E; [|reflexivity].
    apply Qle_bool_iff in E. lra.
Qed.

End Composition.

(** C4 (as stated) fails for the thresholding step: the notebooks threshold
    the correlation matrix after rounding it to two decimals, which is not
    the same as thresholding the library's correlations.  A column whose
    correlation with the outcome is 0.503 is above the threshold 0.5, but
    it is rounded to 0.50 first and then left out. *)
Lemma C4_counterexample :
  ~ (forall (L : Library) (w : world) df s,
       frame_at L (final (run L (air_quality L) w ∅)) "df" = Some df ->
       lseries_at L (final (run L (air_quality L) w ∅)) "y_corr" = Some s ->
       spec_selected (5 # 10) "benzene" df = inr (index s)).
Proof.
  intros H.
  assert (Hc : spec_selected (5 # 10) "benzene" Sample.borderline_table
               = inr (index [("benzene", Num (100 # 100))])).
  { apply (H Sample.library Sample.borderline_world); vm_compute; reflexivity. }
  vm_compute in Hc. discriminate Hc.
Qed.

(** C4 (amended). Every computational step of a notebook is a direct call
    of a library function on the values computed so far, or a short chain
    of such calls, with no retry and no numeric code of the notebook's own,
    with one exception: the life-expectancy notebook recodes its [status]
    column with a conditional expression of its own (1 for "Developed", 0
    for anything else).  A cell-by-cell run shows the same output and ends
    the same way as the composition of those calls written without the
    kernel ([direct_air_quality] and its siblings, which leave the kernel
    empty).  The chains are: the correlation matrix is [corr] followed by
    [round(2)], and the selection is the column of the outcome in that
    rounded matrix under absolute value, comparison and boolean mask, so a
    label is selected when its two-decimal correlation is a number above
    the threshold in absolute value; the feature matrix is the selected
    columns of [df], then [fillna(0)], then [drop]; the outcome is the
    column of [df]; each printed metric is the library's value followed by
    [round(2)]; standardisation is [fit_transform] on the training rows and
    [transform] on the test rows; the statsmodels fit is [add_constant],
    [OLS], [fit]. *)
Theorem C4_runs_compose_library_calls (L : Library) (w : world) :
  ((same_output L (run L (air_quality L) w ∅) (direct_air_quality L w ∅) /\
    final (direct_air_quality L w ∅) = ∅) /\
   (same_output L (run L (life_expectancy L) w ∅) (direct_life_expectancy L w ∅) /\
    final (direct_life_expectancy L w ∅) = ∅) /\
   (same_output L (run L (stakeholder_needs L) w ∅)
      (direct_stakeholder_needs L w ∅) /\
    final (direct_stakeholder_needs L w ∅) = ∅)) /\
  (forall nb v label,
      In (nb, v, label)
         [ (air_quality L, "y_corr", "benzene");
           (life_expectancy L, "y_corr", "life_expectancy");
           (stakeholder_needs L, "target_corr", "target") ] ->
      (forall df s,
          frame_at L (final (run L nb w ∅)) "df" = Some df ->
          lseries_at L (final (run L nb w ∅)) v = Some s ->
          exists t col,
            Qle_bool t (1 # 2) = true /\
            lgetitem label (corr_round2 df) = inr col /\ s = threshold t col) /\
      (forall df X,
          frame_at L (final (run L nb w ∅)) "df" = Some df ->
          frame_at L (final (run L nb w ∅)) "X" = Some X ->
          exists idx X0,
            select idx df = inr X0 /\
            (X = fillna0 X0 \/ exists names, drop names (fillna0 X0) = inr X)) /\
      (forall y,
          series_at L (final (run L nb w ∅)) "y" = Some y ->
          exists df, frame_at L (final (run L nb w ∅)) "df" = Some df /\
                     getitem label df = inr y)) /\
  (forall t col n c,
      In (n, c) (threshold t col)
      <-> In (n, c) col /\ exists q, c = Num q /\ (t < Qabs q)%Q) /\
  (forall k : kernel L,
      let o := run_stmts L (training_block L) w k in
      final o !! "sc" = fst (scaled_train L (k !! "X_train")) /\
      final o !! "X_train" = snd (scaled_train L (k !! "X_train")) /\
      final o !! "X_test" = scaled_test L (k !! "X_train") (k !! "X_test")) /\
  (forall csv status df,
      files w "life_expectancy.csv" = Some csv ->
      getitem "status" csv = inr status ->
      frame_at L (final (run L (life_expectancy L) w ∅)) "df" = Some df ->
      getitem "status" df = inr (map recode_status status)) /\
  (recode_status (Str "Developed") = Num 1 /\
   forall d, d <> Str "Developed" -> recode_status d = Num 0).
Proof.
  split; [|split; [|split; [|split; [|split]]]].
  - split; [|split]; (split; [|store_free]).
    + apply air_quality_run.
    + apply life_expectancy_run.
    + apply stakeholder_needs_run.
  - intros nb v label Hin.
    assert (Hrun : selection_fact L v label (final (run L nb w ∅)) /\
                   features_fact L (final (run L nb w ∅)) /\
                   outcome_fact L label (final (run L nb w ∅))).
    { cbn [In] in Hin. destruct Hin as [H|[H|[H|[]]]]; injection H as <- <- <-.
      - destruct (air_quality_run L w) as (_ & _ & Hs & Hf & Ho). auto.
      - destruct (life_expectancy_run L w) as (_ & _ & Hs & Hf & Ho). auto.
      - destruct (stakeholder_needs_run L w) as (_ & _ & Hs & Hf & Ho). auto. }
    destruct Hrun as (Hs & Hf & Ho). split; [|split].
    + intros df s. now apply selection_chain.
    + intros df X. now apply features_chain.
    + intros y. now apply outcome_column.
  - apply threshold_spec.
  - intros k. cbv zeta. destruct (training_block_run L w k) as (H1 & H2 & H3 & _).
    auto.
  - intros csv status df Hf Hst Hdf. apply getitem_assoc.
    eapply life_expectancy_df; eauto. now apply recoded_status.
  - split; [reflexivity|]. intros d Hd.
    destruct (recode_status_binary d) as [H|H]; [|exact H].
    now apply recode_status_developed in H.
Qed.

(** * The theorems at concrete tables *)

Lemma C1_witness :
  List.filter is_metric
    (screen (fun _ => "Tue, 02 Mar 2021 09:00:00")
       (trace (run Sample.library (air_quality Sample.library)
                 (World (Sample.disk "air_quality.csv" Sample.air_table)
                    (Sample.empty_frame, "") 0) ∅)))
  = List.filter is_metric
      (screen (fun _ => "Wed, 03 Mar 2021 17:30:00")
         (trace (run Sample.library (air_quality Sample.library)
                   (World (Sample.disk "air_quality.csv" Sample.air_table)
                      (Sample.empty_frame, "") 7) ∅)))
  /\ s_split Sample.library 9 = s_split Sample.library 9.
Proof.
  split.
  - apply (proj1 (proj2 (C1_runs_repeat_up_to_the_clock Sample.library
             (Sample.disk "air_quality.csv" Sample.air_table)
             (Sample.empty_frame, "") 0 7
             (fun _ => "Tue, 02 Mar 2021 09:00:00")
             (fun _ => "Wed, 03 Mar 2021 17:30:00")))
             (air_quality Sample.library)).
    right. left. reflexivity.
  - apply (proj2 (proj2 (proj2 (C1_runs_repeat_up_to_the_clock Sample.library
             (fun _ => None) (Sample.empty_frame, "") 0 0
             (fun _ => "") (fun _ => ""))))).
    + simpl. do 12 right. left. reflexivity.
    + reflexivity.
Defined.


Lemma C3_witness :
  result (run Sample.library (air_quality Sample.library) Sample.air_world ∅)
  <> inl (NameError "df").
Proof.
  exact (proj1 (proj2 (proj2 (proj2 (C3_step_order_and_scoping Sample.library)))
                 Sample.air_world "df")).
Defined.

Lemma C5_witness :
  run_stmts Sample.library
    ([s_read_csv Sample.library "life_expectancy.csv"]
     ++ s_recode_status Sample.library
        :: [s_fillna_df Sample.library; s_reset_index Sample.library])
    Sample.no_status_world ∅
  = Outcome
      (trace (run_stmts Sample.library
                [s_read_csv Sample.library "life_expectancy.csv"]
                Sample.no_status_world ∅)
       ++ trace (exec Sample.library (s_recode_status Sample.library)
                   Sample.no_status_world
                   (final (run_stmts Sample.library
                             [s_read_csv Sample.library "life_expectancy.csv"]
                             Sample.no_status_world ∅))))
      (final (exec Sample.library (s_recode_status Sample.library)
                Sample.no_status_world
                (final (run_stmts Sample.library
                          [s_read_csv Sample.library "life_expectancy.csv"]
                          Sample.no_status_world ∅))))
      (inl (KeyError ["status"])).
Proof.
  apply (proj1 (C5_failures_stop_the_run Sample.library Sample.no_status_world)).
  - vm_compute. reflexivity.
  - vm_compute. reflexivity.
Defined.

Lemma C6_witness :
  getitem "bmi"
    (Frame 6 (("index", range_cells 6)
              :: columns (recoded Sample.life_table (map Str Sample.life_status))))
  = inr (map fill0 [Num 3; NA; Num 2; Num 5; Num 6; Num 7]).
Proof.
  apply (proj1 (proj2 (C6_columns_as_loaded_except_status Sample.library
                         Sample.life_world)
                  Sample.life_table (map Str Sample.life_status) _
                  eq_refl eq_refl ltac:(vm_compute; reflexivity))).
  - discriminate.
  - reflexivity.
Defined.

Lemma C7_witness :
  run Sample.library (air_quality Sample.library) Sample.air_world' ∅
  = run Sample.library (air_quality Sample.library) Sample.air_world ∅.
Proof.
  apply (proj2 (proj1 (C7_one_read_then_output_only Sample.library
                         Sample.air_world))).
  reflexivity.
Defined.


Lemma C10_witness :
  getitem "status"
    (Frame 6 (("index", range_cells 6)
              :: columns (recoded Sample.life_table (map Str Sample.life_status))))
  = inr (map recode_status (map Str Sample.life_status)).
Proof.
  apply (proj1 (C10_status_recode Sample.library Sample.life_world
                  Sample.life_table (map Str Sample.life_status) _
                  eq_refl eq_refl ltac:(vm_compute; reflexivity))).
Defined.

Lemma C9_witness :
  result (run_stmts Sample.library (training_block Sample.library) Sample.air_world
            (Sample.split_kernel Sample.test_rows_a)) = inr tt /\
  final (run_stmts Sample.library (training_block Sample.library) Sample.air_world
           (Sample.split_kernel Sample.test_rows_a)) !! "lr"
  = final (run_stmts Sample.library (training_block Sample.library)
             Sample.air_world (Sample.split_kernel Sample.test_rows_b)) !! "lr".
Proof.
  split.
  - vm_compute. reflexivity.
  - apply (proj2 (proj2 (proj1 (C9_fitting_sees_training_rows_only Sample.library
                           Sample.air_world Sample.air_world
                           (Sample.split_kernel Sample.test_rows_a)
                           (Sample.split_kernel Sample.test_rows_b)
                           eq_refl eq_refl)))).
    + vm_compute. reflexivity.
    + vm_compute. reflexivity.
Defined.
(** * Further properties of the table operations *)

(** ** Thresholds *)

Lemma abs_gt_mono t t' c : (t' <= t)%Q -> abs_gt t c = true -> abs_gt t' c = true.
Proof.
  intros Ht. destruct c as [|q|s]; cbn; try discriminate.
  rewrite !negb_true_iff. intros H.
  destruct (Qle_bool (Qabs q) t') eqn:E; [|reflexivity].
  apply Qle_bool_iff in E.
  assert (Qle_bool (Qabs q) t = true) by (apply Qle_bool_iff; lra). congruence.
Qed.

(** X6. Lowering the threshold never loses a label.  For thresholds
    t' <= t, every label selected at t is selected at t', and thresholding
    at t what was selected at t' gives the selection at t: in the main
    notebook every column that passes 0.3 is still in the 0.2 selection of
    the fine-tune cell. *)
Theorem threshold_lowered t t' s :
  (t' <= t)%Q ->
  threshold t (threshold t' s) = threshold t s /\
  incl (index (threshold t s)) (index (threshold t' s)).
Proof.
  intros Ht. split.
  - unfold threshold. induction s as [|[n c] s IH]; cbn; [reflexivity|].
    destruct (abs_gt t c) eqn:E.
    + rewrite (abs_gt_mono _ _ _ Ht E). cbn. rewrite E. now f_equal.
    + destruct (abs_gt t' c); cbn; [rewrite E|]; exact IH.
  - intros n ([n' c] & <- & [Hin Hc]%filter_In)%in_map_iff.
    apply in_map_iff. exists (n', c). split; [reflexivity|].
    apply filter_In. split; [exact Hin|]. eapply abs_gt_mono; eassumption.
Qed.

(** ** Symmetry of the correlation *)

Lemma Qmult_comm_eq (a b : Q) : (a * b)%Q = (b * a)%Q.
Proof. unfold Qmult. now rewrite Z.mul_comm, Pos.mul_comm. Qed.

Lemma complete_pairs_swap xs ys :
  complete_pairs ys xs = map (fun p => (snd p, fst p)) (complete_pairs xs ys).
Proof.
  revert ys. induction xs as [|x xs IH]; intros [|y ys]; cbn; try reflexivity.
  destruct x, y; cbn; rewrite IH; reflexivity.
Qed.

Lemma scaled_cov_swap ps :
  scaled_cov (map (fun p => (snd p, fst p)) ps) = scaled_cov ps.
Proof.
  unfold scaled_cov. rewrite length_map, !map_map. cbn [fst snd].
  rewrite (Qmult_comm_eq (Qsum (map snd ps))).
  f_equal. f_equal. f_equal. apply map_ext. intros p. apply Qmult_comm_eq.
Qed.

Lemma co_moment_sym xs ys : co_moment ys xs = co_moment xs ys.
Proof. unfold co_moment. now rewrite complete_pairs_swap, scaled_cov_swap. Qed.

Lemma self_moment_swap xs ys :
  self_moment_x ys xs = self_moment_y xs ys /\
  self_moment_y ys xs = self_moment_x xs ys.
Proof.
  unfold self_moment_x, self_moment_y.
  rewrite complete_pairs_swap, !map_map. cbn [fst snd]. split; reflexivity.
Qed.

Lemma pearson_round2_sym xs ys : pearson_round2 ys xs = pearson_round2 xs ys.
Proof.
  unfold pearson_round2.
  destruct (self_moment_swap xs ys) as [-> ->].
  rewrite co_moment_sym, (Qmult_comm_eq (self_moment_y xs ys)). reflexivity.
Qed.

Lemma corr_column name f col :
  lgetitem name (corr_round2 f) = inr col ->
  exists y, assoc name (numeric_columns f) = Some y /\
    col = map (fun r => (fst r, pearson_round2 (snd r) y)) (numeric_columns f).
Proof.
  unfold lgetitem, corr_round2.
  rewrite (assoc_map (fun _ c => map (fun r => (fst r, pearson_round2 (snd r) c))
                                  (numeric_columns f))).
  destruct (assoc name (numeric_columns f)) as [y|]; [|discriminate].
  cbn. intros [= <-]. eauto.
Qed.

Lemma corr_entry f y b :
  assoc b (map (fun r => (fst r, pearson_round2 (snd r) y)) (numeric_columns f))
  = option_map (fun x => pearson_round2 x y) (assoc b (numeric_columns f)).
Proof. apply (assoc_map (fun _ x => pearson_round2 x y)). Qed.

(** X9. The rounded correlation matrix is square and symmetric: its rows
    and each of its columns are labelled by the numeric columns of the
    table, in table order, and the entry for (b, a) equals the entry for
    (a, b).  Reading [df_corr[outcome]] as a column gives the same values as
    reading the outcome's row. *)
Theorem corr_round2_symmetric f a b ca cb :
  lgetitem a (corr_round2 f) = inr ca ->
  lgetitem b (corr_round2 f) = inr cb ->
  assoc b ca = assoc a cb /\
  index ca = map fst (numeric_columns f) /\
  map fst (corr_round2 f) = map fst (numeric_columns f).
Proof.
  intros (ya & Ha & ->)%corr_column (yb & Hb & ->)%corr_column.
  rewrite !corr_entry, Ha, Hb. cbn. split; [|split].
  - f_equal. apply pearson_round2_sym.
  - unfold index. rewrite map_map. reflexivity.
  - unfold corr_round2. rewrite map_map. reflexivity.
Qed.

(** ** Rounding *)



(** ** The sizes of the split *)

Lemma ceil_fifth (n : nat) :
  Z.to_nat (Qceiling ((2 # 10) * inject_Z (Z.of_nat n))) = ((n + 4) / 5)%nat.
Proof.
  unfold Qceiling, Qfloor, Qopp, Qmult, inject_Z. cbn [Qnum Qden].
  change (Z.pos (10 * 1)) with 10%Z.
  apply Nat2Z.inj. rewrite Nat2Z.inj_div, Nat2Z.inj_add.
  change (Z.of_nat 4) with 4%Z. change (Z.of_nat 5) with 5%Z.
  rewrite Z2Nat.id; Z.div_mod_to_equations; lia.
Qed.

Lemma split_sizes_fifth n :
  split_sizes (2 # 10) n =
  match n with
  | 0%nat => inl (ValueError "n_samples=0")
  | 1%nat => inl (ValueError "the resulting train set will be empty")
  | _ => inr ((n - (n + 4) / 5)%nat, ((n + 4) / 5)%nat)
  end.
Proof.
  unfold split_sizes. rewrite ceil_fifth.
  destruct n as [|[|n]]; [reflexivity..|].
  cbn [Nat.eqb].
  assert (H : (S (S n) - (S (S n) + 4) / 5 <> 0)%nat).
  { pose proof (Nat.div_mod_eq (S (S n) + 4) 5).
    pose proof (Nat.mod_upper_bound (S (S n) + 4) 5). lia. }
  apply Nat.eqb_neq in H. now rewrite H.
Qed.

Lemma fifth_bounds n : (2 <= n -> 1 <= (n + 4) / 5 < n)%nat.
Proof.
  intros Hn. pose proof (Nat.div_mod_eq (n + 4) 5).
  pose proof (Nat.mod_upper_bound (n + 4) 5). lia.
Qed.

(** ** Taking rows *)

Lemma take_rows_length {A} idx (l r : list A) :
  take_rows idx l = inr r -> List.length r = List.length idx.
Proof.
  revert r. induction idx as [|i idx IH]; cbn; intros r.
  - now intros [= <-].
  - destruct (nth_error l i); [|discriminate].
    destruct (take_rows idx l); [discriminate|].
    intros [= <-]. cbn. f_equal. now apply IH.
Qed.

Lemma take_rows_nth {A} idx (l r : list A) j i :
  take_rows idx l = inr r -> nth_error idx j = Some i ->
  nth_error r j = nth_error l i /\ (i < List.length l)%nat.
Proof.
  revert r j. induction idx as [|i0 idx IH]; cbn; intros r j.
  - intros _. destruct j; discriminate.
  - destruct (nth_error l i0) eqn:E; [|discriminate].
    destruct (take_rows idx l) as [|r']; [discriminate|].
    intros [= <-]. destruct j as [|j]; cbn.
    + intros [= ->]. split; [now rewrite E|].
      apply nth_error_Some. congruence.
    + now apply IH.
Qed.

Lemma take_frame_shape idx f g :
  take_frame idx f = inr g ->
  nrows g = List.length idx /\ column_names g = column_names f.
Proof.
  unfold take_frame.
  destruct (take_columns idx (columns f)) as [|cols] eqn:E; [discriminate|].
  intros [= <-]. split; [reflexivity|]. unfold column_names. cbn.
  revert cols E. induction (columns f) as [|[n s] l IH]; cbn; intros cols.
  - now intros [= <-].
  - destruct (take_rows idx s); [discriminate|].
    destruct (take_columns idx l); [discriminate|].
    intros [= <-]. cbn. f_equal. now apply IH.
Qed.

Lemma take_frame_column idx f g name s :
  take_frame idx f = inr g -> In (name, s) (columns g) ->
  exists s0, In (name, s0) (columns f) /\ take_rows idx s0 = inr s.
Proof.
  unfold take_frame.
  destruct (take_columns idx (columns f)) as [|cols] eqn:E; [discriminate|].
  intros [= <-]. cbn. revert cols E.
  induction (columns f) as [|[n s0] l IH]; cbn; intros cols.
  - intros [= <-] [].
  - destruct (take_rows idx s0) as [|s'] eqn:Es; [discriminate|].
    destruct (take_columns idx l) as [|rest]; [discriminate|].
    intros [= <-] [[= <- <-]|Hin]; [eauto|].
    destruct (IH rest eq_refl Hin) as (s1 & H1 & H2). eauto.
Qed.

(** What a successful split is made of. *)
Lemma split_with_inv perm ts X y sp :
  split_with perm ts X y = inr sp ->
  List.length y = nrows X /\
  exists n_train n_test,
    split_sizes ts (nrows X) = inr (n_train, n_test) /\
    take_frame (firstn n_train (skipn n_test perm)) X = inr (split_X_train sp) /\
    take_frame (firstn n_test perm) X = inr (split_X_test sp) /\
    take_rows (firstn n_train (skipn n_test perm)) y = inr (split_y_train sp) /\
    take_rows (firstn n_test perm) y = inr (split_y_test sp).
Proof.
  unfold split_with.
  destruct (Nat.eqb_spec (List.length y) (nrows X)) as [Hl|]; [|discriminate].
  cbn [negb].
  destruct (split_sizes ts (nrows X)) as [|[ntr nte]]; [discriminate|].
  destruct (take_frame (firstn ntr (skipn nte perm)) X) eqn:E1; [discriminate|].
  destruct (take_frame (firstn nte perm) X) eqn:E2; [discriminate|].
  destruct (take_rows (firstn ntr (skipn nte perm)) y) eqn:E3; [discriminate|].
  destruct (take_rows (firstn nte perm) y) eqn:E4; [discriminate|].
  intros [= <-]. cbn. split; [exact Hl|]. exists ntr, nte.
  repeat split; assumption.
Qed.

(** ** Dropping columns *)

Lemma filter_map_fst {A} (P : string -> bool) (l : list (string * A)) :
  map fst (List.filter (fun c => P (fst c)) l) = List.filter P (map fst l).
Proof.
  induction l as [|[n a] l IH]; cbn; [reflexivity|].
  destruct (P n); cbn; now rewrite IH.
Qed.

Lemma missing_labels_none names f n :
  missing_labels names f = [] -> In n names -> In n (column_names f).
Proof.
  intros Hm Hn. destruct (existsb (String.eqb n) (column_names f)) eqn:E.
  - now apply existsb_eqb_In.
  - assert (In n (missing_labels names f)) as Hin
      by (apply filter_In; split; [exact Hn | now rewrite E]).
    rewrite Hm in Hin. contradiction.
Qed.

Lemma drop_names names f X :
  drop names f = inr X ->
  column_names X
  = List.filter (fun n => negb (existsb (String.eqb n) names)) (column_names f) /\
  nrows X = nrows f /\
  forall n, In n names -> In n (column_names f).
Proof.
  unfold drop. destruct (missing_labels names f) eqn:Hm; [|discriminate].
  intros [= <-]. cbn. split; [|split; [reflexivity|]].
  - apply (filter_map_fst (fun n => negb (existsb (String.eqb n) names))).
  - intros n. now apply missing_labels_none.
Qed.

Lemma select_nrows names f X : select names f = inr X -> nrows X = nrows f.
Proof.
  unfold select. destruct (missing_labels names f); [|discriminate].
  now intros [= <-].
Qed.


(** ** Filling and choosing columns *)

Lemma missing_labels_fillna0 names f :
  missing_labels names (fillna0 f) = missing_labels names f.
Proof. unfold missing_labels. now rewrite fillna0_names. Qed.

Lemma fill0_idem c : fill0 (fill0 c) = fill0 c.
Proof. now destruct c. Qed.

Lemma flat_map_fill names (cols : list (string * series)) :
  flat_map (fun n => match assoc n (map (fun c => (fst c, map fill0 (snd c))) cols) with
                     | Some s => [(n, s)]
                     | None => []
                     end) names
  = map (fun c => (fst c, map fill0 (snd c)))
      (flat_map (fun n => match assoc n cols with
                          | Some s => [(n, s)]
                          | None => []
                          end) names).
Proof.
  unfold series in *.
  induction names as [|n names IH]; [reflexivity|].
  cbn [flat_map]. rewrite map_app, IH. f_equal.
  rewrite (assoc_map (fun _ => map fill0)).
  destruct (assoc n cols); reflexivity.
Qed.

(** X17. Filling commutes with choosing columns, for one and the same list
    of labels.  Selecting the columns [names] of the filled table is
    selecting them and then filling, with the same KeyError when a label is
    missing; the same holds for dropping the columns [names]; and filling
    twice is filling once. *)
Theorem fill_commutes_with_columns names f :
  select names (fillna0 f)
  = match select names f with inl e => inl e | inr X => inr (fillna0 X) end /\
  drop names (fillna0 f)
  = match drop names f with inl e => inl e | inr X => inr (fillna0 X) end /\
  fillna0 (fillna0 f) = fillna0 f.
Proof.
  split; [|split].
  - unfold select. rewrite missing_labels_fillna0.
    destruct (missing_labels names f); [|reflexivity].
    unfold fillna0. cbn [nrows columns]. f_equal. f_equal.
    apply flat_map_fill.
  - unfold drop. rewrite missing_labels_fillna0.
    destruct (missing_labels names f); [|reflexivity].
    unfold fillna0. cbn [nrows columns]. f_equal. f_equal.
    induction (columns f) as [|[n s] l IH]; cbn; [reflexivity|].
    destruct (existsb (String.eqb n) names); cbn; now rewrite IH.
  - unfold fillna0. cbn [nrows columns]. f_equal. rewrite map_map. cbn [fst snd].
    apply map_ext. intros [n s]. cbn. f_equal. rewrite map_map.
    apply map_ext, fill0_idem.
Qed.

(** ** The range of a correlation *)








(** * Cells started in an arbitrary kernel *)

(** [df[v.index]] for a selection [v] taken from the correlation matrix of
    [df] itself. *)
Lemma select_of_selection t label df col :
  lgetitem label (corr_round2 df) = inr col ->
  exists X,
    select (index (threshold t col)) df = inr X /\
    column_names X = index (threshold t col) /\
    nrows X = nrows df.
Proof.
  intros Hcol.
  assert (Hm : missing_labels (index (threshold t col)) df = []).
  { apply missing_labels_nil. intros n. eapply selected_are_columns, Hcol. }
  destruct (select (index (threshold t col)) df) as [e|X] eqn:E.
  - unfold select in E. rewrite Hm in E. discriminate.
  - exists X. split; [reflexivity|].
    split; [eapply select_names, E | eapply select_nrows, E].
Qed.

Lemma fillna0_nrows f : nrows (fillna0 f) = nrows f.
Proof. reflexivity. Qed.

Lemma filter_not_label label (names : list string) :
  List.filter (fun n => negb (existsb (String.eqb n) [label])) names
  = List.filter (fun n => negb (String.eqb n label)) names.
Proof. apply filter_ext. intros n. cbn. now rewrite orb_false_r. Qed.

Section Cells.

Context (L : Library).

(** X2. What the model set-up cell leaves behind when it completes,
    started in any kernel where [df] is a table and [v] a selection: [X]
    has the selected labels as columns, in the order of the selection and
    without the outcome, which was among the selected labels; [X] has as
    many rows as [df]; [y] is the outcome column of [df]; [y_train] and
    [y_test] are the two parts of the seeded split of that [X] and [y];
    and [X_train] and [X_test] have been replaced by arrays. *)
Theorem setup_cell_postcondition (w : world) (k : kernel L)
    (v label : string) (seed : Z) (df : frame) (s : lseries) :
  k !! "df" = Some (VFrame L df) ->
  k !! v = Some (VLSeries L s) ->
  result (run_stmts L (cell_setup L v label seed) w k) = inr tt ->
  exists X y sp,
    frame_at L (final (run_stmts L (cell_setup L v label seed) w k)) "X" = Some X /\
    column_names X = List.filter (fun n => negb (String.eqb n label)) (index s) /\
    In label (index s) /\
    nrows X = nrows df /\
    getitem label df = inr y /\
    final (run_stmts L (cell_setup L v label seed) w k) !! "y"
      = Some (VSeries L y) /\
    split_with (permutation L (RandomState seed) (nrows X)) (2 # 10) X y = inr sp /\
    final (run_stmts L (cell_setup L v label seed) w k) !! "y_train"
      = Some (VSeries L (split_y_train sp)) /\
    final (run_stmts L (cell_setup L v label seed) w k) !! "y_test"
      = Some (VSeries L (split_y_test sp)) /\
    (exists m, final (run_stmts L (cell_setup L v label seed) w k) !! "X_train"
               = Some (VArray L m)) /\
    (exists m, final (run_stmts L (cell_setup L v label seed) w k) !! "X_test"
               = Some (VArray L m)).
Proof.
  intros Hdf Hv. kstart. krun.
  all: cbn [result final prepend]; try discriminate.
  intros _.
  match goal with
  | Hs : select _ _ = inr ?X0, Hd : drop _ _ = inr ?X,
    Hy : getitem _ _ = inr ?y, Hsp : split_with _ _ _ _ = inr ?sp |- _ =>
      exists X, y, sp;
      destruct (drop_names _ _ _ Hd) as (Hn & Hr & Hin);
      rewrite fillna0_names, (select_names _ _ _ Hs), filter_not_label in Hn;
      rewrite fillna0_names, (select_names _ _ _ Hs) in Hin;
      rewrite fillna0_nrows, (select_nrows _ _ _ Hs) in Hr
  end.
  unfold frame_at. repeat klookup.
  split; [reflexivity|]. split; [assumption|].
  split; [apply Hin; now left|].
  repeat (split; [first [assumption | reflexivity]|]).
  split; eexists; reflexivity.
Qed.


Lemma split_result X y ts rs w (k : kernel L) :
  result (train_test_split L X y ts rs w k)
  = split_with (permutation L
                  (match rs with
                   | Some seed => RandomState seed
                   | None => GlobalState (entropy w)
                   end) (nrows X)) ts X y.
Proof.
  unfold train_test_split. destruct rs as [seed|].
  - rewrite bind_ret. reflexivity.
  - rewrite bind_assoc, bind_eq. cbn [global_entropy result trace final].
    rewrite bind_ret. reflexivity.
Qed.

(** X3. A table with fewer than two rows cannot be split, and neither can
    a table whose outcome has another number of values: with test_size 0.2
    [train_test_split] ends with a ValueError, whatever the seed. *)
Theorem split_needs_two_rows (w : world) (k : kernel L) X y rs :
  (nrows X < 2)%nat \/ List.length y <> nrows X ->
  exists msg,
    result (train_test_split L X y (2 # 10) rs w k) = inl (ValueError msg).
Proof.
  intros H. rewrite split_result. unfold split_with.
  destruct (Nat.eqb_spec (List.length y) (nrows X)) as [Hl|Hl]; cbn [negb];
    [|eauto].
  destruct H as [H|H]; [|contradiction].
  rewrite split_sizes_fifth.
  destruct (nrows X) as [|[|n]]; [eauto..|lia].
Qed.

(** X4. The rows of a successful split.  When the library's permutation
    has one entry per row, the test rows are its first ceil(n/5) entries and
    the training rows all the others, so both parts are non-empty and every
    entry of the permutation is used exactly once; the parts of [X] and of
    [y] have these sizes; and rows stay aligned: position j of [y_train]
    and of each column of [X_train] hold the values of the same input row,
    and likewise for the test part. *)
Theorem split_rows_partition (w : world) (k : kernel L) X y seed sp :
  List.length (permutation L (RandomState seed) (nrows X)) = nrows X ->
  result (train_test_split L X y (2 # 10) (Some seed) w k) = inr sp ->
  exists test train,
    test ++ train = permutation L (RandomState seed) (nrows X) /\
    List.length test = ((nrows X + 4) / 5)%nat /\
    (1 <= List.length test)%nat /\ (1 <= List.length train)%nat /\
    nrows (split_X_test sp) = List.length test /\
    nrows (split_X_train sp) = List.length train /\
    List.length (split_y_test sp) = List.length test /\
    List.length (split_y_train sp) = List.length train /\
    (forall j i, nth_error train j = Some i ->
       nth_error (split_y_train sp) j = nth_error y i /\
       forall name c, In (name, c) (columns (split_X_train sp)) ->
         exists c0, In (name, c0) (columns X) /\ nth_error c j = nth_error c0 i) /\
    (forall j i, nth_error test j = Some i ->
       nth_error (split_y_test sp) j = nth_error y i /\
       forall name c, In (name, c) (columns (split_X_test sp)) ->
         exists c0, In (name, c0) (columns X) /\ nth_error c j = nth_error c0 i).
Proof.
  intros Hperm. rewrite split_result.
  intros (Hl & ntr & nte & Hsz & HXtr & HXte & Hytr & Hyte)%split_with_inv.
  rewrite split_sizes_fifth in Hsz.
  destruct (nrows X) as [|[|n]] eqn:En; [discriminate..|].
  injection Hsz as <- <-.
  set (N := S (S n)) in *. set (perm := permutation L (RandomState seed) N) in *.
  destruct (fifth_bounds N) as [Hlo Hhi]; [subst N; lia|].
  exists (firstn ((N + 4) / 5) perm), (firstn (N - (N + 4) / 5) (skipn ((N + 4) / 5) perm)).
  assert (Hte : List.length (firstn ((N + 4) / 5) perm) = ((N + 4) / 5)%nat)
    by (rewrite length_firstn; lia).
  assert (Htr : List.length (firstn (N - (N + 4) / 5) (skipn ((N + 4) / 5) perm))
                = (N - (N + 4) / 5)%nat)
    by (rewrite length_firstn, length_skipn; lia).
  split.
  { rewrite (firstn_all2 (n := N - (N + 4) / 5)) by (rewrite length_skipn; lia).
    apply firstn_skipn. }
  split; [exact Hte|]. split; [lia|]. split; [lia|].
  split; [eapply take_frame_shape, HXte|].
  split; [eapply take_frame_shape, HXtr|].
  split; [eapply take_rows_length, Hyte|].
  split; [eapply take_rows_length, Hytr|].
  split; intros j i Hj.
  - split; [eapply take_rows_nth; eassumption|].
    intros name c (c0 & Hin & Hc)%(take_frame_column _ _ _ _ _ HXtr).
    exists c0. split; [exact Hin|]. eapply take_rows_nth; eassumption.
  - split; [eapply take_rows_nth; eassumption|].
    intros name c (c0 & Hin & Hc)%(take_frame_column _ _ _ _ _ HXte).
    exists c0. split; [exact Hin|]. eapply take_rows_nth; eassumption.
Qed.

(** X7. The fine-tune cell of the main notebook splits the rows as the
    first model did.  It takes [y] from the kernel, its new [X] has as many
    rows as [df], and the seed is 5 again: whenever it completes, [y_train]
    and [y_test] are those of the seeded split of any table with that many
    rows against the same [y], the first feature matrix included. *)
Theorem fine_tune_keeps_split (w : world) (k : kernel L) df m y X1 sp1 :
  k !! "df" = Some (VFrame L df) ->
  k !! "df_corr" = Some (VLFrame L m) ->
  k !! "y" = Some (VSeries L y) ->
  nrows X1 = nrows df ->
  split_with (permutation L (RandomState 5) (nrows X1)) (2 # 10) X1 y = inr sp1 ->
  result (run_stmts L (cell_fine_tune L) w k) = inr tt ->
  final (run_stmts L (cell_fine_tune L) w k) !! "y_train"
    = Some (VSeries L (split_y_train sp1)) /\
  final (run_stmts L (cell_fine_tune L) w k) !! "y_test"
    = Some (VSeries L (split_y_test sp1)).
Proof.
  intros Hdf Hm Hy Hn H1. kstart. krun.
  all: cbn [result final prepend]; try discriminate.
  intros _. repeat klookup.
  match goal with
  | Hs : select _ _ = inr ?X0, Hd : drop _ _ = inr ?X,
    Hsp : split_with _ _ ?X _ = inr ?sp |- _ =>
      destruct (drop_names _ _ _ Hd) as (_ & Hr & _);
      rewrite fillna0_nrows, (select_nrows _ _ _ Hs), <- Hn in Hr;
      rewrite Hr in Hsp;
      apply split_with_inv in Hsp as (_ & ntr & nte & Hsz & _ & _ & Hytr & Hyte);
      rewrite Hr in Hsz
  end.
  apply split_with_inv in H1 as (_ & ntr1 & nte1 & Hsz1 & _ & _ & Hytr1 & Hyte1).
  rewrite Hsz1 in Hsz. injection Hsz as <- <-.
  rewrite Hytr1 in Hytr. rewrite Hyte1 in Hyte.
  injection Hytr as <-. injection Hyte as <-. split; reflexivity.
Qed.

(** X8. The fine-tune cell drops "target", "s4" and "s6" by name.  When
    one of them is not in the 0.2 selection the cell ends with a KeyError
    that lists exactly the labels not selected, having shown nothing;
    [target_corr] and [X] are already overwritten (with the new selection
    and the filled columns), and every other variable, the earlier split
    and the fitted results included, is as before. *)
Theorem fine_tune_missing_columns (w : world) (k : kernel L) df col :
  k !! "df" = Some (VFrame L df) ->
  k !! "df_corr" = Some (VLFrame L (corr_round2 df)) ->
  lgetitem "target" (corr_round2 df) = inr col ->
  ~ (In "target" (index (threshold (2 # 10) col)) /\
     In "s4" (index (threshold (2 # 10) col)) /\
     In "s6" (index (threshold (2 # 10) col))) ->
  result (run_stmts L (cell_fine_tune L) w k)
    = inl (KeyError
             (List.filter
                (fun n => negb (existsb (String.eqb n)
                                  (index (threshold (2 # 10) col))))
                ["target"; "s4"; "s6"])) /\
  trace (run_stmts L (cell_fine_tune L) w k) = [] /\
  lseries_at L (final (run_stmts L (cell_fine_tune L) w k)) "target_corr"
    = Some (threshold (2 # 10) col) /\
  (exists X0,
      select (index (threshold (2 # 10) col)) df = inr X0 /\
      frame_at L (final (run_stmts L (cell_fine_tune L) w k)) "X"
        = Some (fillna0 X0)) /\
  (forall x, x <> "X" -> x <> "target_corr" ->
     final (run_stmts L (cell_fine_tune L) w k) !! x = k !! x).
Proof.
  intros Hdf Hm Hcol Hnot.
  destruct (select_of_selection (2 # 10) _ _ _ Hcol) as (X0 & Hsel & Hnames & _).
  destruct (drop ["target"; "s4"; "s6"] (fillna0 X0)) as [e|X] eqn:Hd.
  2:{ exfalso. apply Hnot. apply drop_names in Hd as (_ & _ & Hin).
      rewrite fillna0_names, Hnames in Hin.
      repeat split; apply Hin; cbn; auto. }
  apply drop_error in Hd as He. subst e.
  unfold missing_labels in Hd. rewrite fillna0_names, Hnames in Hd.
  kstart. krun. cbn [result trace final prepend app].
  unfold lseries_at, frame_at. repeat klookup.
  split; [reflexivity|]. split; [reflexivity|]. split; [reflexivity|].
  split; [exists X0; split; reflexivity|].
  intros x Hx Hx'. now rewrite !lookup_insert_ne by congruence.
Qed.


Lemma corr_no_column label df e :
  lgetitem label (corr_round2 df) = inl e ->
  ~ In label (map fst (numeric_columns df)).
Proof.
  unfold lgetitem. intros H Hin.
  assert (Hc : In label (map fst (corr_round2 df))).
  { unfold corr_round2. now rewrite map_map. }
  apply assoc_names in Hc as [a Ha]. rewrite Ha in H. discriminate.
Qed.

(** X1. [df[v.index]] cannot fail for a selection taken from the
    correlation matrix of [df] itself.  Computing the selection and then
    selecting its labels either ends at the first statement with a KeyError
    on the outcome label, which is then not a numeric column of [df], or
    completes with [X] holding exactly the selected labels as columns and
    all rows of [df]. *)
Theorem selection_is_selectable (w : world) (k : kernel L) df v label t :
  k !! "df" = Some (VFrame L df) ->
  k !! "df_corr" = Some (VLFrame L (corr_round2 df)) ->
  v <> "df" ->
  (forall e,
      result (run_stmts L [s_threshold L v label t; s_select_X L v] w k) = inl e ->
      e = KeyError [label] /\ ~ In label (map fst (numeric_columns df))) /\
  (result (run_stmts L [s_threshold L v label t; s_select_X L v] w k) = inr tt ->
   exists col X,
     lgetitem label (corr_round2 df) = inr col /\
     select (index (threshold t col)) df = inr X /\
     frame_at L (final (run_stmts L [s_threshold L v label t; s_select_X L v] w k))
       "X" = Some X /\
     column_names X = index (threshold t col) /\
     nrows X = nrows df).
Proof.
  intros Hdf Hm Hv.
  destruct (lgetitem label (corr_round2 df)) as [e0|col] eqn:Hcol.
  - pose proof (corr_no_column _ _ _ Hcol) as Hno.
    apply lgetitem_error in Hcol as He. subst e0.
    krun. cbn [result]. split; [|discriminate].
    intros e [= <-]. split; [reflexivity | exact Hno].
  - destruct (select_of_selection t _ _ _ Hcol) as (X & HX & Hn & Hr).
    krun. cbn [result final]. split; [discriminate|]. intros _.
    exists col, X. unfold frame_at. klookup. repeat split; auto.
Qed.

(** Variables a cell does not assign keep their value. *)
Ltac untouched Hx :=
  cbn [final prepend];
  rewrite ?lookup_insert_ne; [reflexivity | intros <-; apply Hx; cbn; tauto ..].

(** X5. The variables the shared cells assign.  Whatever the kernel and
    however the cell ends, the set-up cell changes at most [X], [y],
    [X_train], [X_test], [y_train], [y_test] and [sc]; the fit cell at most
    [lr] and [y_preds]; the statsmodels cell at most [x_train], [model] and
    [results]; the fine-tune cell at most [target_corr], [X], the split
    variables, [sc], [x_train], [model] and [results].  In particular the
    fine-tune cell leaves [y], [lr] and [y_preds] as the first model left
    them. *)
Theorem cells_write_only (w : world) (k : kernel L) (x v label : string)
    (seed : Z) :
  (~ In x ["X"; "y"; "X_train"; "X_test"; "y_train"; "y_test"; "sc"] ->
   final (run_stmts L (cell_setup L v label seed) w k) !! x = k !! x) /\
  (~ In x ["lr"; "y_preds"] ->
   final (run_stmts L (cell_fit L) w k) !! x = k !! x) /\
  (~ In x ["x_train"; "model"; "results"] ->
   final (run_stmts L (cell_ols L) w k) !! x = k !! x) /\
  (~ In x ["target_corr"; "X"; "X_train"; "X_test"; "y_train"; "y_test"; "sc";
           "x_train"; "model"; "results"] ->
   final (run_stmts L (cell_fine_tune L) w k) !! x = k !! x).
Proof.
  split; [|split; [|split]]; intros Hx; kstart; krun; untouched Hx.
Qed.

End Cells.

(** * Whole runs *)

Lemma range_cells_numeric n : is_numeric (range_cells n) = true.
Proof.
  unfold is_numeric, range_cells. apply forallb_forall.
  now intros c (i & <- & _)%in_map_iff.
Qed.

Lemma fill0_numeric s : is_numeric s = true -> is_numeric (map fill0 s) = true.
Proof.
  unfold is_numeric. rewrite !forallb_forall.
  intros H c (c0 & <- & Hin)%in_map_iff. specialize (H c0 Hin).
  now destruct c0.
Qed.

Lemma reset_index_fresh f :
  ~ In "index" (column_names f) ->
  reset_index f
  = inr (Frame (nrows f) (("index", range_cells (nrows f)) :: columns f)).
Proof.
  intros H. unfold reset_index. cbv zeta.
  destruct (existsb (String.eqb "index") (column_names f)) eqn:E;
    [|reflexivity].
  apply existsb_eqb_In in E. contradiction.
Qed.

Lemma setitem_names name v f s :
  getitem name f = inr s -> column_names (setitem name v f) = column_names f.
Proof.
  intros H%getitem_assoc. unfold column_names, setitem. cbn [columns].
  induction (columns f) as [|[y b] l IH]; cbn in *; [discriminate|].
  destruct (String.eqb_spec name y) as [->|Hn]; cbn; [reflexivity|].
  f_equal. now apply IH.
Qed.




Ltac shape_leaf :=
  cbn [result trace prepend app];
  let He := fresh "Hres" in
  intros He; first [ discriminate He | reflexivity ].

Section WholeRuns.

Context (L : Library).




Lemma direct_air_quality_shape w :
  result (direct_air_quality L w ∅) = inr tt ->
  map shape (trace (direct_air_quality L w ∅))
  = [ "read"; "text"; "matrix"; "series"; "pairplot";
      "LinearRegression() training set r2 score: ";
      "LinearRegression() test set r2 score: "; "text" ].
Proof. kdirect. krun. all: shape_leaf. Qed.

Lemma direct_life_expectancy_shape w :
  result (direct_life_expectancy L w ∅) = inr tt ->
  map shape (trace (direct_life_expectancy L w ∅))
  = [ "read"; "text"; "series"; "pairplot";
      "LinearRegression() training set r2 score: ";
      "LinearRegression() test set r2 score: "; "text" ].
Proof. kdirect. krun. all: shape_leaf. Qed.

Lemma direct_stakeholder_needs_shape w :
  result (direct_stakeholder_needs L w ∅) = inr tt ->
  map shape (trace (direct_stakeholder_needs L w ∅))
  = [ "read"; "text"; "matrix"; "series"; "pairplot";
      "LinearRegression() training set r2 score: ";
      "LinearRegression() test set r2 score: ";
      "LinearRegression() test set mean squared error: ";
      "text"; "text"; "regplot" ].
Proof. kdirect. krun. all: shape_leaf. Qed.

End WholeRuns.


(** X14. What a complete run shows, in order.  Air quality: the table
    summary, the correlation matrix, the selection, the pair plot, the two
    r2 lines and the regression summary.  Life expectancy: the same without
    the correlation matrix.  Main notebook: the description, the matrix, the
    selection, the pair plot, the two r2 lines and the mean squared error,
    two regression summaries and the regression plot.  Each is preceded by
    the one read of the data. *)
Theorem complete_run_output (L : Library) (w : world) :
  (result (run L (air_quality L) w ∅) = inr tt ->
   map shape (trace (run L (air_quality L) w ∅))
   = [ "read"; "text"; "matrix"; "series"; "pairplot";
       "LinearRegression() training set r2 score: ";
       "LinearRegression() test set r2 score: "; "text" ]) /\
  (result (run L (life_expectancy L) w ∅) = inr tt ->
   map shape (trace (run L (life_expectancy L) w ∅))
   = [ "read"; "text"; "series"; "pairplot";
       "LinearRegression() training set r2 score: ";
       "LinearRegression() test set r2 score: "; "text" ]) /\
  (result (run L (stakeholder_needs L) w ∅) = inr tt ->
   map shape (trace (run L (stakeholder_needs L) w ∅))
   = [ "read"; "text"; "matrix"; "series"; "pairplot";
       "LinearRegression() training set r2 score: ";
       "LinearRegression() test set r2 score: ";
       "LinearRegression() test set mean squared error: ";
       "text"; "text"; "regplot" ]).
Proof.
  split; [|split].
  - destruct (air_quality_run L w) as ([Ht Hr] & _). rewrite Ht, Hr.
    apply direct_air_quality_shape.
  - destruct (life_expectancy_run L w) as ([Ht Hr] & _). rewrite Ht, Hr.
    apply direct_life_expectancy_shape.
  - destruct (stakeholder_needs_run L w) as ([Ht Hr] & _). rewrite Ht, Hr.
    apply direct_stakeholder_needs_shape.
Qed.

Section MoreRuns.

Context (L : Library).

Lemma exercise_df_filled w nb df name s :
  nb = air_quality L \/ nb = life_expectancy L ->
  final (run L nb w ∅) !! "df" = Some (VFrame L df) ->
  (exists X, final (run L nb w ∅) !! "X" = Some (VFrame L X)) ->
  In (name, s) (columns df) -> no_missing s.
Proof.
  intros [-> | ->] Hdf [X HX] Hin.
  - destruct (air_quality_run L w) as (_ & Hl & _). unfold air_loaded in Hl.
    destruct (files w "air_quality.csv") as [csv|]; rewrite Hl in Hdf;
      [|discriminate].
    injection Hdf as <-. eapply fillna0_no_missing, Hin.
  - destruct (life_expectancy_run L w) as (_ & Hl & _). unfold life_loaded in Hl.
    destruct (files w "life_expectancy.csv") as [csv|] eqn:Hf;
      [|rewrite Hl in Hdf; discriminate].
    destruct (getitem "status" csv) as [e|status] eqn:Hst.
    { rewrite (life_expectancy_bad_status L w csv e Hf Hst) in HX.
      cbn [final] in HX. rewrite lookup_insert_ne in HX by done.
      now rewrite lookup_empty in HX. }
    destruct (reset_index (recoded csv status)) as [e|df'] eqn:Er;
      rewrite Hl in Hdf; injection Hdf as <-.
    + eapply fillna0_no_missing, Hin.
    + eapply reset_index_no_missing; [exact Er| |exact Hin].
      intros n c. apply fillna0_no_missing.
Qed.

End MoreRuns.

(** X11. In the two exercise notebooks the fill of [X] changes nothing:
    [df] was filled when it was loaded, so every column of the feature
    matrix [X] is, cell for cell, the column of [df] of the same name. *)
Theorem exercise_second_fill_is_noop (L : Library) (w : world) nb df X name s :
  nb = air_quality L \/ nb = life_expectancy L ->
  frame_at L (final (run L nb w ∅)) "df" = Some df ->
  frame_at L (final (run L nb w ∅)) "X" = Some X ->
  In (name, s) (columns X) ->
  getitem name df = inr s.
Proof.
  intros Hnb Hdf%frame_at_lookup HX%frame_at_lookup Hin.
  assert (Hf : features_fact L (final (run L nb w ∅))).
  { destruct Hnb as [-> | ->].
    - apply (air_quality_run L w).
    - apply (life_expectancy_run L w). }
  destruct (features_filled L _ _ _ _ _ Hf Hdf HX Hin) as (s0 & H0 & ->).
  rewrite no_missing_fill0_id; [exact H0|].
  eapply (exercise_df_filled L w nb df name); eauto.
  now apply getitem_assoc, assoc_In in H0.
Qed.

(** X12. The row numbers take part in the selection of the
    life-expectancy notebook.  For a file with a [status] column, a numeric
    outcome and no column called "index", [reset_index] puts the old index
    0..n-1 in front as a numeric column "index"; the displayed selection is
    the thresholded outcome column of a correlation matrix that has an
    entry for "index", the rounded correlation of the row numbers with the
    filled outcome. *)
Theorem life_index_is_candidate (L : Library) (w : world) csv status s0 :
  files w "life_expectancy.csv" = Some csv ->
  getitem "status" csv = inr status ->
  ~ In "index" (column_names csv) ->
  getitem "life_expectancy" csv = inr s0 ->
  is_numeric s0 = true ->
  exists col,
    In (Display (ShLSeries (threshold (3 # 10) col)))
       (trace (run L (life_expectancy L) w ∅)) /\
    assoc "index" col
    = Some (pearson_round2 (range_cells (nrows csv)) (map fill0 s0)).
Proof.
  intros Hf Hst Hidx Hy Hnum.
  assert (Hnames : column_names (recoded csv status) = column_names csv).
  { unfold recoded. rewrite fillna0_names. eapply setitem_names, Hst. }
  assert (Hr : reset_index (recoded csv status)
               = inr (Frame (nrows csv)
                        (("index", range_cells (nrows csv))
                         :: columns (recoded csv status)))).
  { rewrite reset_index_fresh by now rewrite Hnames. reflexivity. }
  set (df := Frame (nrows csv)
               (("index", range_cells (nrows csv)) :: columns (recoded csv status)))
    in *.
  assert (Hi : assoc "index" (numeric_columns df) = Some (range_cells (nrows csv))).
  { unfold numeric_columns, df. cbn [columns List.filter snd].
    rewrite range_cells_numeric. reflexivity. }
  assert (Hle : assoc "life_expectancy" (numeric_columns df) = Some (map fill0 s0)).
  { apply assoc_filter; [|now apply fill0_numeric].
    unfold df. cbn [columns assoc].
    destruct (String.eqb_spec "life_expectancy" "index") as [Heq|_];
      [discriminate Heq|].
    apply recoded_other; [discriminate | exact Hy]. }
  exists (map (fun r => (fst r, pearson_round2 (snd r) (map fill0 s0)))
            (numeric_columns df)).
  split; [|now rewrite corr_entry, Hi].
  assert (Hcol : lgetitem "life_expectancy" (corr_round2 df)
                 = inr (map (fun r => (fst r, pearson_round2 (snd r) (map fill0 s0)))
                          (numeric_columns df))).
  { unfold lgetitem, corr_round2.
    rewrite (assoc_map (fun _ c => map (fun r => (fst r, pearson_round2 (snd r) c))
                                    (numeric_columns df))), Hle.
    reflexivity. }
  destruct (life_expectancy_run L w) as ([Ht _] & _). rewrite Ht.
  unfold direct_life_expectancy, direct_select.
  rewrite bind_read_csv, Hf, trace_prepend, bind_lift, Hst, bind_lift.
  fold (recoded csv status). rewrite Hr, bind_emit, trace_prepend.
  rewrite bind_assoc, bind_lift, Hcol, bind_ret, bind_emit, trace_prepend.
  cbn [app In]. auto.
Qed.

Section CellsAlone.

Context (L : Library).

(** X15. The first cell of each notebook does not depend on the kernel it
    is started in: it reads and shows the same, ends the same way and,
    unless the file is missing, leaves the same table in [df].  Running it
    again after any other cell reloads the data as a fresh run does. *)
Theorem load_cell_ignores_kernel (w : world) (k : kernel L) nb c :
  In nb (notebooks L) -> head nb = Some c ->
  trace (run_stmts L c w k) = trace (run_stmts L c w ∅) /\
  result (run_stmts L c w k) = result (run_stmts L c w ∅) /\
  ((forall p, result (run_stmts L c w k) <> inl (FileNotFoundError p)) ->
   frame_at L (final (run_stmts L c w k)) "df"
   = frame_at L (final (run_stmts L c w ∅)) "df").
Proof.
  intros Hnb Hc. cbn in Hnb. destruct Hnb as [<-|[<-|[<-|[]]]];
    cbn in Hc; injection Hc as <-; krun;
    cbn [trace result final prepend app]; unfold frame_at; repeat klookup;
    repeat split; try reflexivity.
  all: intros H; exfalso; eapply H; reflexivity.
Qed.


End CellsAlone.

(** * The further properties at concrete tables *)

Lemma selection_is_selectable_witness :
  exists col X,
    lgetitem "benzene" (corr_round2 (fillna0 Sample.air_table)) = inr col /\
    select (index (threshold (5 # 10) col)) (fillna0 Sample.air_table) = inr X /\
    column_names X = index (threshold (5 # 10) col).
Proof.
  destruct (proj2 (selection_is_selectable Sample.library Sample.air_world
                     (Sample.corr_kernel (fillna0 Sample.air_table))
                     (fillna0 Sample.air_table) "y_corr" "benzene" (5 # 10)
                     ltac:(reflexivity) ltac:(reflexivity) ltac:(discriminate))
              ltac:(vm_compute; reflexivity))
    as (col & X & H1 & H2 & _ & H3 & _).
  exists col, X. split; [exact H1|]. split; [exact H2 | exact H3].
Defined.

Lemma setup_cell_postcondition_witness :
  exists X,
    column_names X
    = List.filter (fun n => negb (String.eqb n "benzene"))
        (index (Sample.selection (fillna0 Sample.air_table) "benzene" (5 # 10))) /\
    nrows X = 6%nat.
Proof.
  destruct (setup_cell_postcondition Sample.library Sample.air_world
              (Sample.selected_kernel (fillna0 Sample.air_table) "y_corr"
                 "benzene" (5 # 10))
              "y_corr" "benzene" 9 (fillna0 Sample.air_table)
              (Sample.selection (fillna0 Sample.air_table) "benzene" (5 # 10))
              ltac:(reflexivity) ltac:(reflexivity)
              ltac:(vm_compute; reflexivity))
    as (X & y & sp & _ & H1 & _ & H2 & _).
  exists X. split; [exact H1 | exact H2].
Defined.

Lemma split_needs_two_rows_witness :
  exists msg,
    result (train_test_split Sample.library (Frame 1 [("temp", [Num 1])]) [Num 2]
              (2 # 10) (Some 9%Z) Sample.air_world ∅)
    = inl (ValueError msg).
Proof.
  apply split_needs_two_rows. left. simpl. lia.
Defined.

Lemma split_rows_partition_witness :
  exists test train,
    test ++ train
    = permutation Sample.library (RandomState 9) (nrows Sample.air_table) /\
    List.length test = 2%nat.
Proof.
  destruct (split_rows_partition Sample.library Sample.air_world ∅
              Sample.air_table (Sample.ints [1; 2; 3; 4; 5; 6]%Z) 9 _
              ltac:(reflexivity) ltac:(vm_compute; reflexivity))
    as (test & train & H1 & H2 & _).
  exists test, train. split; [exact H1 | exact H2].
Defined.

Lemma threshold_lowered_witness :
  threshold (3 # 10)
    (threshold (2 # 10) [("bmi", Num (59 # 100)); ("s5", Num (25 # 100));
                         ("sex", Num (4 # 100))])
  = threshold (3 # 10) [("bmi", Num (59 # 100)); ("s5", Num (25 # 100));
                        ("sex", Num (4 # 100))].
Proof.
  apply (threshold_lowered (3 # 10) (2 # 10)). unfold Qle. simpl. lia.
Defined.

Lemma fine_tune_keeps_split_witness :
  exists sp1,
    split_with (permutation Sample.library (RandomState 5) 6) (2 # 10)
      Sample.diabetes_table (Sample.ints [1; 2; 3; 4; 5; 6]%Z) = inr sp1 /\
    final (run_stmts Sample.library (cell_fine_tune Sample.library)
             Sample.diabetes_world
             (<["y" := VSeries Sample.library (Sample.ints [1; 2; 3; 4; 5; 6]%Z)]>
                (Sample.corr_kernel Sample.diabetes_table))) !! "y_train"
    = Some (VSeries Sample.library (split_y_train sp1)).
Proof.
  eexists. split; [vm_compute; reflexivity|].
  match goal with
  | |- _ = Some (VSeries _ (split_y_train ?sp)) =>
      pose proof (fine_tune_keeps_split Sample.library Sample.diabetes_world
                    (<["y" := VSeries Sample.library
                                (Sample.ints [1; 2; 3; 4; 5; 6]%Z)]>
                       (Sample.corr_kernel Sample.diabetes_table))
                    Sample.diabetes_table (corr_round2 Sample.diabetes_table)
                    (Sample.ints [1; 2; 3; 4; 5; 6]%Z) Sample.diabetes_table sp)
        as H
  end.
  apply H.
  - reflexivity.
  - reflexivity.
  - reflexivity.
  - reflexivity.
  - vm_compute. reflexivity.
  - vm_compute. reflexivity.
Defined.

Lemma fine_tune_missing_columns_witness :
  result (run_stmts Sample.library (cell_fine_tune Sample.library)
            Sample.diabetes_world (Sample.corr_kernel Sample.weak_table))
  = inl (KeyError ["s4"]).
Proof.
  refine (eq_trans
            (proj1 (fine_tune_missing_columns Sample.library Sample.diabetes_world
                      (Sample.corr_kernel Sample.weak_table) Sample.weak_table _
                      ltac:(reflexivity) ltac:(reflexivity)
                      ltac:(vm_compute; reflexivity) _)) _).
  - intros (_ & H & _). vm_compute in H. intuition discriminate.
  - vm_compute. reflexivity.
Defined.

Lemma corr_round2_symmetric_witness :
  exists ca cb,
    lgetitem "temp" (corr_round2 Sample.air_table) = inr ca /\
    lgetitem "benzene" (corr_round2 Sample.air_table) = inr cb /\
    assoc "benzene" ca = assoc "temp" cb.
Proof.
  eexists. eexists. split; [vm_compute; reflexivity|].
  split; [vm_compute; reflexivity|].
  apply (corr_round2_symmetric Sample.air_table "temp" "benzene");
    vm_compute; reflexivity.
Defined.

Lemma exercise_second_fill_is_noop_witness :
  getitem "temp" (fillna0 Sample.air_table)
  = inr (Sample.ints [1; 2; 3; 4; 6; 5]%Z).
Proof.
  apply (exercise_second_fill_is_noop Sample.library Sample.air_world
           (air_quality Sample.library) (fillna0 Sample.air_table)
           (Frame 6 [("temp", Sample.ints [1; 2; 3; 4; 6; 5]%Z)])).
  - left. reflexivity.
  - vm_compute. reflexivity.
  - vm_compute. reflexivity.
  - left. reflexivity.
Defined.

Lemma life_index_is_candidate_witness :
  exists col,
    In (Display (ShLSeries (threshold (3 # 10) col)))
       (trace (run Sample.library (life_expectancy Sample.library)
                 Sample.life_world ∅)) /\
    assoc "index" col
    = Some (pearson_round2 (range_cells 6)
              (map fill0 (Sample.ints [71; 62; 64; 75; 78; 80]%Z))).
Proof.
  apply (life_index_is_candidate Sample.library Sample.life_world
           Sample.life_table (map Str Sample.life_status)).
  - reflexivity.
  - reflexivity.
  - simpl. intuition discriminate.
  - reflexivity.
  - reflexivity.
Defined.


Lemma complete_run_output_witness :
  map shape (trace (run Sample.library (air_quality Sample.library)
                      Sample.air_world ∅))
  = [ "read"; "text"; "matrix"; "series"; "pairplot";
      "LinearRegression() training set r2 score: ";
      "LinearRegression() test set r2 score: "; "text" ].
Proof.
  apply (proj1 (complete_run_output Sample.library Sample.air_world)).
  vm_compute. reflexivity.
Defined.

Lemma load_cell_ignores_kernel_witness :
  trace (run_stmts Sample.library
           [s_read_csv Sample.library "air_quality.csv"; s_fillna_df Sample.library]
           Sample.air_world (Sample.corr_kernel Sample.weak_table))
  = trace (run_stmts Sample.library
             [s_read_csv Sample.library "air_quality.csv";
              s_fillna_df Sample.library]
             Sample.air_world ∅).
Proof.
  apply (load_cell_ignores_kernel Sample.library Sample.air_world
           (Sample.corr_kernel Sample.weak_table) (air_quality Sample.library)).
  - right. left. reflexivity.
  - reflexivity.
Defined.


Lemma cells_write_only_witness :
  final (run_stmts Sample.library (cell_fine_tune Sample.library)
           Sample.diabetes_world (Sample.corr_kernel Sample.diabetes_table))
    !! "lr"
  = Sample.corr_kernel Sample.diabetes_table !! "lr".
Proof.
  apply (proj2 (proj2 (proj2 (cells_write_only Sample.library
                                 Sample.diabetes_world
                                 (Sample.corr_kernel Sample.diabetes_table)
                                 "lr" "target_corr" "target" 5)))).
  simpl. intuition discriminate.
Defined.


